(** * Elytro wallet extension: the background wallet controller

    A shallow embedding of
    [apps/extension/src/background/walletController.ts] and of the
    collaborators it drives, followed by the properties of the controller
    that the specification states.

    The controller is a stateless facade: every method reads and updates the
    singletons it imports (keyring, approval service, connection manager,
    session manager, chain service, account manager, history manager, SDK,
    chain client).  Those singletons are gathered in one [World] record that
    the methods thread explicitly; each call on a collaborator is also
    appended to [trace], so that the order of the calls can be stated (the
    methods of the section on the other methods apart, whose properties are
    stated on results and states).  The page [CreateNewAddress] of the side
    panel, which calls the controller through the wallet proxy, follows. *)

From Stdlib Require Import List String Ascii NArith Bool Lia.
From Stdlib Require Import Decimal DecimalString DecimalN.
Import ListNotations.
Local Open Scope string_scope.

(* ================================================================== *)
(** ** JavaScript values, errors, completions and promises *)
(* ================================================================== *)

(** A run-time value as far as [typeof] tells them apart. *)
Inductive jsvalue : Type :=
| JUndefined
| JNull
| JBool (b : bool)
| JNumber (n : N)
| JString (s : string)
| JObject (fields : list (string * string)).

(** [typeof v === 'string'] *)
Definition is_string (v : jsvalue) : bool :=
  match v with
  | JString _ => true
  | _ => false
  end.

(** The two constructors of [ethErrors.rpc] the controller uses. *)
Inductive rpc_code : Type :=
| Internal
| InvalidParams.

(** What a [throw] can carry: an [Error] built with [new Error(msg)] (also
    the errors of collaborators), an error built by [ethErrors.rpc.internal]
    or [ethErrors.rpc.invalidParams], recorded with the optional message
    argument the controller gives to the constructor ([eth-rpc-errors] is an
    external library; the message it shows for an absent argument is the
    [default_message] of the collaborators), or a thrown value that is not
    an error object. *)
Inductive exn : Type :=
| JsError (message : string)
| EthRpcError (code : rpc_code) (message : option string)
| NonError.

(** A string or undefined value in a condition: [undefined] and the empty
    string are falsy. *)
Definition truthy (s : option string) : bool :=
  match s with
  | Some s => negb (s =? "")
  | None => false
  end.

(** How a synchronous piece of code ends. *)
Inductive completion (A : Type) : Type :=
| Returned (a : A)
| Thrown (e : exn).
Arguments Returned {A} a.
Arguments Thrown {A} e.

(** What calling an [async] method hands back. *)
Inductive promise (A : Type) : Type :=
| Fulfilled (a : A)
| Rejected (e : exn).
Arguments Fulfilled {A} a.
Arguments Rejected {A} e.

(** The promise an [async] body settles to. *)
Definition settle {A : Type} (c : completion A) : promise A :=
  match c with
  | Returned a => Fulfilled a
  | Thrown e => Rejected e
  end.

(* ================================================================== *)
(** ** Hexadecimal rendering ([toHex] of viem, [BigInt] of a hex literal) *)
(* ================================================================== *)

Module Hex.

Definition digit (d : N) : ascii :=
  match d with
  | 0 => "0" | 1 => "1" | 2 => "2" | 3 => "3"
  | 4 => "4" | 5 => "5" | 6 => "6" | 7 => "7"
  | 8 => "8" | 9 => "9" | 10 => "a" | 11 => "b"
  | 12 => "c" | 13 => "d" | 14 => "e" | _ => "f"
  end%N%char.

(** Value of one hexadecimal character; both cases are read, as [BigInt]
    does. *)
Definition value (c : ascii) : option N :=
  let n := N_of_ascii c in
  if ((48 <=? n) && (n <=? 57))%N then Some (n - 48)%N
  else if ((97 <=? n) && (n <=? 102))%N then Some (n - 87)%N
  else if ((65 <=? n) && (n <=? 70))%N then Some (n - 55)%N
  else None.

(** [n.toString(16)], most significant digit first; [fuel] bounds the number
    of digits. *)
Fixpoint digits (fuel : nat) (n : N) (rest : string) : string :=
  match fuel with
  | O => rest
  | S fuel' =>
      let rest' := String (digit (n mod 16)%N) rest in
      if (n / 16 =? 0)%N then rest' else digits fuel' (n / 16)%N rest'
  end.

(** [toHex(n)]: [0x] followed by the digits of [n] ([0x0] for zero).  This
    is [toHex] of a big integer, which has no upper bound; [numberToHex]
    below is [toHex] of a JavaScript number. *)
Definition toHex (n : N) : string :=
  "0x" ++ digits (S (N.to_nat (N.log2 n))) n "".

(** [Number.MAX_SAFE_INTEGER] *)
Definition max_safe_integer : N := 9007199254740991.

(** [toHex(n)] of viem for a JavaScript number: a number above
    [Number.MAX_SAFE_INTEGER] is refused with an [IntegerOutOfRangeError].
    The error is recorded under its name; the text of its message is not
    modelled. *)
Definition numberToHex (n : N) : completion string :=
  if (n <=? max_safe_integer)%N then Returned (toHex n)
  else Thrown (JsError "IntegerOutOfRangeError").

(** Reads digits from the left into [acc]; [None] at the first character
    that is not a digit. *)
Fixpoint read (s : string) (acc : N) : option N :=
  match s with
  | EmptyString => Some acc
  | String c s' =>
      match value c with
      | Some d => read s' (acc * 16 + d)%N
      | None => None
      end
  end.

(** [BigInt(s)] for a hex literal: [0x] and at least one digit. *)
Definition fromHex (s : string) : option N :=
  match s with
  | String "0" (String "x" (String c s')) => read (String c s') 0%N
  | _ => None
  end.

(** [isHex(s)] *)
Definition isHex (s : string) : bool :=
  match fromHex s with
  | Some _ => true
  | None => false
  end.

End Hex.

(* ================================================================== *)
(** ** The BigInt formatting helpers of [@/utils/format] *)
(* ================================================================== *)

Module Format.

(** A field of an object that crosses the controller boundary (a user
    operation, a gas estimate): a big integer inside the background
    process, text, a plain number, a flag, or nothing. *)
Inductive field : Type :=
| FBigInt (n : N)
| FString (s : string)
| FNumber (n : N)
| FBool (b : bool)
| FNull.

Definition object : Type := list (string * field).

(** Modelled from the spec: [formatObjectWithBigInt] of [@/utils/format],
    which is not among the sources.  Numeric (big-integer) fields are
    serialized as hexadecimal strings at the process boundary; every other
    field is left as it is. *)
Definition formatField (v : field) : field :=
  match v with
  | FBigInt n => FString (Hex.toHex n)
  | _ => v
  end.

Definition formatObjectWithBigInt (obj : object) : object :=
  map (fun kv => (fst kv, formatField (snd kv))) obj.

Definition listed (key : string) (keys : list string) : bool :=
  existsb (String.eqb key) keys.

(** Modelled from the spec: [deformatObjectWithBigInt] of [@/utils/format],
    which is not among the sources.  The conversion back to big integers
    follows an explicit allow-list of field names, not a blanket
    conversion: a field is converted when it is named in [keys] and holds a
    hexadecimal string. *)
Definition deformatField (keys : list string) (key : string) (v : field) : field :=
  match v with
  | FString s =>
      if listed key keys then
        match Hex.fromHex s with
        | Some n => FBigInt n
        | None => v
        end
      else v
  | _ => v
  end.

Definition deformatObjectWithBigInt (keys : list string) (obj : object) : object :=
  map (fun kv => (fst kv, deformatField keys (fst kv) (snd kv))) obj.

End Format.

(* ================================================================== *)
(** ** Data model *)
(* ================================================================== *)

(** [TDAppInfo]; [origin] is optional in the type (the controller asserts
    it with [dApp.origin!]). *)
Record TDAppInfo : Type := {
  dapp_origin : option string;
  dapp_name : string;
  dapp_icon : string
}.

(** Modelled from the spec: [TChainItem] of [@/constants/chains]
    ({ id, rpcUrl, displayName, ... }). *)
Record TChainItem : Type := {
  chain_id : N;
  rpcUrl : string;
  displayName : string
}.

(** [Partial<TChainItem>] *)
Record PartialChain : Type := {
  upd_id : option N;
  upd_rpcUrl : option string;
  upd_displayName : option string
}.

Record Account : Type := {
  address : string;
  account_chainId : N;
  isDeployed : bool
}.

Record Owner : Type := {
  owner_address : option string
}.

Record Approval : Type := {
  approval_id : string;
  approval_type : string;
  approval_data : jsvalue;
  approval_origin : string
}.

Record TTypedDataItem : Type := {
  item_type : string;
  item_name : string;
  item_value : string
}.

(** Payload of a session event: a list of addresses ([accountsChanged]) or
    a chain id in hexadecimal ([chainChanged]). *)
Inductive payload : Type :=
| Addresses (l : list (option string))
| ChainIdHex (s : string).

Record Message : Type := {
  event_name : string;
  event_payload : payload
}.

Record Session : Type := {
  origin : string;
  inbox : list Message
}.

Record HistoryItem : Type := {
  data : list (string * string);
  status : string
}.

(** *** Collaborator states *)

Record Keyring : Type := {
  owner : option Owner;
  locked : bool
}.

Inductive outcome : Type :=
| Resolved (response : jsvalue)
| Cancelled.

Record ApprovalService : Type := {
  currentApproval : option Approval;
  settled : list (string * outcome)
}.

Record ChainService : Type := {
  chains : list TChainItem;
  currentChain : option TChainItem
}.

Record AccountManager : Type := {
  accounts : list Account;
  currentAccount : option Account
}.

Record HistoryManager : Type := {
  isInitialized : bool;
  histories : list HistoryItem
}.

(** One call on a collaborator. *)
Inductive event : Type :=
| ApprovalResolve (id : string) (response : jsvalue)
| ApprovalReject (id : string)
| ConnectionConnect (dApp : TDAppInfo) (chainId : N)
| SessionBroadcastToDApp (target : option string) (msg : Message)
| SessionBroadcast (msg : Message)
| ChainUpdate (chainId : N) (config : PartialChain)
| ChainSwitch (chainId : N)
| SdkReset (config : TChainItem)
| ClientInit (config : TChainItem)
| SdkSignMessage (message signer : string)
| SdkSignUserOperation (userOp : Format.object)
| SdkSendUserOperation (userOp : Format.object)
| SdkDecodeUserOperation (userOp : Format.object)
| SdkEstimateGas (userOp : Format.object)
| SdkIsDeployed (account : string)
| ClientGetBalance (account : string)
| AccountCreateAsCurrent (ownerAddress : string) (chainId : N)
| AccountSwitchByChainId (chainId : N)
| AccountActivateCurrent
| HistorySwitchAccount (account : option Account).

(** The singletons the controller imports, and the calls made so far. *)
Record World : Type := {
  keyring : Keyring;
  approvalService : ApprovalService;
  connectionManager : list (TDAppInfo * N);
  sessionManager : list Session;
  chainService : ChainService;
  accountManager : AccountManager;
  historyManager : HistoryManager;
  elytroSDK : option TChainItem;
  walletClient : option TChainItem;
  trace : list event
}.

Definition with_approvalService (a : ApprovalService) (w : World) : World :=
  {| keyring := keyring w; approvalService := a;
     connectionManager := connectionManager w;
     sessionManager := sessionManager w; chainService := chainService w;
     accountManager := accountManager w; historyManager := historyManager w;
     elytroSDK := elytroSDK w; walletClient := walletClient w;
     trace := trace w |}.

Definition with_connectionManager (c : list (TDAppInfo * N)) (w : World) : World :=
  {| keyring := keyring w; approvalService := approvalService w;
     connectionManager := c;
     sessionManager := sessionManager w; chainService := chainService w;
     accountManager := accountManager w; historyManager := historyManager w;
     elytroSDK := elytroSDK w; walletClient := walletClient w;
     trace := trace w |}.

Definition with_sessionManager (s : list Session) (w : World) : World :=
  {| keyring := keyring w; approvalService := approvalService w;
     connectionManager := connectionManager w;
     sessionManager := s; chainService := chainService w;
     accountManager := accountManager w; historyManager := historyManager w;
     elytroSDK := elytroSDK w; walletClient := walletClient w;
     trace := trace w |}.

Definition with_chainService (c : ChainService) (w : World) : World :=
  {| keyring := keyring w; approvalService := approvalService w;
     connectionManager := connectionManager w;
     sessionManager := sessionManager w; chainService := c;
     accountManager := accountManager w; historyManager := historyManager w;
     elytroSDK := elytroSDK w; walletClient := walletClient w;
     trace := trace w |}.

Definition with_accountManager (a : AccountManager) (w : World) : World :=
  {| keyring := keyring w; approvalService := approvalService w;
     connectionManager := connectionManager w;
     sessionManager := sessionManager w; chainService := chainService w;
     accountManager := a; historyManager := historyManager w;
     elytroSDK := elytroSDK w; walletClient := walletClient w;
     trace := trace w |}.

Definition with_historyManager (h : HistoryManager) (w : World) : World :=
  {| keyring := keyring w; approvalService := approvalService w;
     connectionManager := connectionManager w;
     sessionManager := sessionManager w; chainService := chainService w;
     accountManager := accountManager w; historyManager := h;
     elytroSDK := elytroSDK w; walletClient := walletClient w;
     trace := trace w |}.

Definition with_elytroSDK (c : option TChainItem) (w : World) : World :=
  {| keyring := keyring w; approvalService := approvalService w;
     connectionManager := connectionManager w;
     sessionManager := sessionManager w; chainService := chainService w;
     accountManager := accountManager w; historyManager := historyManager w;
     elytroSDK := c; walletClient := walletClient w;
     trace := trace w |}.

Definition with_walletClient (c : option TChainItem) (w : World) : World :=
  {| keyring := keyring w; approvalService := approvalService w;
     connectionManager := connectionManager w;
     sessionManager := sessionManager w; chainService := chainService w;
     accountManager := accountManager w; historyManager := historyManager w;
     elytroSDK := elytroSDK w; walletClient := c;
     trace := trace w |}.

Definition log (ev : event) (w : World) : World :=
  {| keyring := keyring w; approvalService := approvalService w;
     connectionManager := connectionManager w;
     sessionManager := sessionManager w; chainService := chainService w;
     accountManager := accountManager w; historyManager := historyManager w;
     elytroSDK := elytroSDK w; walletClient := walletClient w;
     trace := trace w ++ [ev] |}.

(* ================================================================== *)
(** ** Code that reads and updates the singletons *)
(* ================================================================== *)

(** A piece of controller code: from the world before to how it ends and
    the world after.  What was done before a [throw] stays done. *)
Definition M (A : Type) : Type := World -> completion A * World.

Definition ret {A : Type} (a : A) : M A :=
  fun w => (Returned a, w).

Definition throw {A : Type} (e : exn) : M A :=
  fun w => (Thrown e, w).

Definition bind {A B : Type} (m : M A) (k : A -> M B) : M B :=
  fun w =>
    match m w with
    | (Returned a, w') => k a w'
    | (Thrown e, w') => (Thrown e, w')
    end.

Definition lift {A : Type} (c : completion A) : M A :=
  fun w => (c, w).

Definition gets {A : Type} (f : World -> A) : M A :=
  fun w => (Returned (f w), w).

(** A call on a collaborator that returns nothing: its effect on the world,
    then its entry in the trace. *)
Definition call (ev : event) (f : World -> World) : M unit :=
  fun w => (Returned tt, log ev (f w)).

(** [try { m } catch (error) { handler error }] *)
Definition try_catch {A : Type} (m : M A) (handler : exn -> M A) : M A :=
  fun w =>
    match m w with
    | (Returned a, w') => (Returned a, w')
    | (Thrown e, w') => handler e w'
    end.

(** An [async] method whose body is [body]: the call itself never throws;
    it hands back the promise the body settles to.  The controller runs on
    one event loop and the model does not interleave other calls, so the
    body has run when the call returns. *)
Definition async {A : Type} (body : M A) : M (promise A) :=
  fun w => let (c, w') := body w in (Returned (settle c), w').

(** [await p] *)
Definition await {A : Type} (p : promise A) : M A :=
  match p with
  | Fulfilled a => ret a
  | Rejected e => throw e
  end.

Declare Scope wallet_scope.
Delimit Scope wallet_scope with wallet.
Notation "x <- m ;; k" := (bind m (fun x => k))
  (at level 61, m at next level, right associativity) : wallet_scope.
Notation "m ;; k" := (bind m (fun _ => k))
  (at level 61, right associativity) : wallet_scope.
Local Open Scope wallet_scope.

(** What the caller of a method gets and the world it leaves. *)
Definition result {A : Type} (r : completion A * World) : completion A := fst r.
Definition after {A : Type} (r : completion A * World) : World := snd r.

(** The calls a run added to the trace of [w]. *)
Definition emitted (w w' : World) : list event :=
  skipn (List.length (trace w)) (trace w').

(* ================================================================== *)
(** ** Session manager and approval service *)
(* ================================================================== *)

Definition deliver (msg : Message) (s : Session) : Session :=
  {| origin := origin s; inbox := inbox s ++ [msg] |}.

Definition addressed (target : option string) (s : Session) : bool :=
  match target with
  | Some o => origin s =? o
  | None => false
  end.

(** Modelled from the spec: [sessionManager.broadcastMessageToDApp] of
    [./services/session], which is not among the sources: a registry of
    session listeners keyed by origin, with broadcast to one origin. *)
Definition broadcastMessageToDApp (target : option string) (msg : Message)
  (sessions : list Session) : list Session :=
  map (fun s => if addressed target s then deliver msg s else s) sessions.

(** Modelled from the spec: [sessionManager.broadcastMessage] of
    [./services/session], which is not among the sources: broadcast to all
    sessions. *)
Definition broadcastMessage (msg : Message) (sessions : list Session) : list Session :=
  map (deliver msg) sessions.

Definition pending (id : string) (svc : ApprovalService) : bool :=
  match currentApproval svc with
  | Some a => approval_id a =? id
  | None => false
  end.

(** Modelled from the spec: [approvalService.resolveApproval] of
    [./services/approval], which is not among the sources: the pending
    approval terminates via resolve with response data; resolving a stale
    id is a silent no-op. *)
Definition approval_resolveApproval (id : string) (response : jsvalue)
  (svc : ApprovalService) : ApprovalService :=
  if pending id svc
  then {| currentApproval := None;
          settled := settled svc ++ [(id, Resolved response)] |}
  else svc.

(** Modelled from the spec: [approvalService.rejectApproval] of
    [./services/approval], which is not among the sources: the pending
    approval terminates via reject; rejecting a stale id is a silent
    no-op. *)
Definition approval_rejectApproval (id : string) (svc : ApprovalService) : ApprovalService :=
  if pending id svc
  then {| currentApproval := None;
          settled := settled svc ++ [(id, Cancelled)] |}
  else svc.

(* ================================================================== *)
(** ** Collaborators whose code is outside the controller *)
(* ================================================================== *)

(** What the controller consumes from the services, the SDK, the chain
    client and the libraries it imports.  The controller is verified for
    every behaviour of these. *)
Record Collaborators : Type := {
  connection_connect : TDAppInfo -> N -> list (TDAppInfo * N) -> list (TDAppInfo * N);
  chain_updateChain : N -> PartialChain -> ChainService -> ChainService;
  chain_switchChain : N -> ChainService -> ChainService * option TChainItem;
  account_createAccountAsCurrent : string -> N -> AccountManager -> AccountManager;
  account_switchAccountByChainId : N -> AccountManager -> AccountManager;
  account_activateCurrentAccount : AccountManager -> AccountManager;
  history_switchAccount : option Account -> HistoryManager -> HistoryManager;
  sdk_signMessage : option TChainItem -> string -> string -> promise string;
  sdk_signUserOperation : option TChainItem -> Format.object -> promise jsvalue;
  sdk_sendUserOperation : option TChainItem -> Format.object -> promise jsvalue;
  sdk_getDecodedUserOperation : option TChainItem -> Format.object -> promise Format.object;
  sdk_estimateGas : option TChainItem -> Format.object -> bool -> promise Format.object;
  sdk_isSmartAccountDeployed : option TChainItem -> string -> promise bool;
  client_getBalance : option TChainItem -> string -> promise N;
  formatEther : N -> string;
  JSON_parse : string -> completion jsvalue;
  hashSignTypedData : jsvalue -> completion (option string);
  hashEarlyTypedData : list TTypedDataItem -> completion (option string);
  default_message : rpc_code -> string;
  default_bigint_keys : list string
}.

(** [{ ...obj, key: value }] *)
Fixpoint set_field (key value : string) (obj : list (string * string)) : list (string * string) :=
  match obj with
  | [] => [(key, value)]
  | (k, v) :: rest =>
      if k =? key then (k, value) :: rest
      else (k, v) :: set_field key value rest
  end.

(* ================================================================== *)
(** ** The wallet controller *)
(* ================================================================== *)

Section WalletController.

Variable env : Collaborators.

(** [(error as Error)?.message] *)
Definition exn_message (e : exn) : option string :=
  match e with
  | JsError m => Some m
  | EthRpcError _ (Some m) => Some m
  | EthRpcError code None => Some (default_message env code)
  | NonError => None
  end.

(** [accountManager.currentAccount?.address] *)
Definition current_address (w : World) : option string :=
  option_map address (currentAccount (accountManager w)).

(** [chainId === chainService.currentChain?.id] *)
Definition is_current_chain (chainId : N) (w : World) : bool :=
  match currentChain (chainService w) with
  | Some c => (chainId =? chain_id c)%N
  | None => false
  end.

Definition accountsChanged (w : World) : Message :=
  {| event_name := "accountsChanged";
     event_payload := Addresses [current_address w] |}.

(** The [chainChanged] event of a chain whose id [toHex] renders. *)
Definition chainChanged (config : TChainItem) : Message :=
  {| event_name := "chainChanged";
     event_payload := ChainIdHex (Hex.toHex (chain_id config)) |}.

Definition getCurrentApproval : M (promise (option Approval)) :=
  async (gets (fun w => currentApproval (approvalService w))).

Definition resolveApproval (id : string) (response : jsvalue) : M (promise unit) :=
  async (call (ApprovalResolve id response)
           (fun w => with_approvalService
                       (approval_resolveApproval id response (approvalService w)) w)).

Definition rejectApproval (id : string) : M (promise unit) :=
  async (call (ApprovalReject id)
           (fun w => with_approvalService
                       (approval_rejectApproval id (approvalService w)) w)).

Definition connectWallet (dApp : TDAppInfo) (chainId : N) : M (promise unit) :=
  async (
    call (ConnectionConnect dApp chainId)
      (fun w => with_connectionManager
                  (connection_connect env dApp chainId (connectionManager w)) w) ;;
    msg <- gets accountsChanged ;;
    call (SessionBroadcastToDApp (dapp_origin dApp) msg)
      (fun w => with_sessionManager
                  (broadcastMessageToDApp (dapp_origin dApp) msg (sessionManager w)) w)).

Definition signUserOperation (userOp : Format.object) : M (promise jsvalue) :=
  async (
    let op := Format.deformatObjectWithBigInt (default_bigint_keys env) userOp in
    call (SdkSignUserOperation op) (fun w => w) ;;
    sdk <- gets elytroSDK ;;
    await (sdk_signUserOperation env sdk op)).

Definition sendUserOperation (userOp : Format.object) : M (promise jsvalue) :=
  async (
    let op := Format.deformatObjectWithBigInt
                ["maxFeePerGas"; "maxPriorityFeePerGas"] userOp in
    call (SdkSendUserOperation op) (fun w => w) ;;
    sdk <- gets elytroSDK ;;
    await (sdk_sendUserOperation env sdk op)).

(** The second test of the source reads the current account again; nothing
    runs between the two reads, so the model reads it once. *)
Definition signMessage (message : jsvalue) : M (promise string) :=
  async (
    account <- gets (fun w => currentAccount (accountManager w)) ;;
    match account with
    | None => throw (EthRpcError Internal None)
    | Some a =>
        if address a =? "" then throw (EthRpcError Internal None)
        else
          match message with
          | JString text =>
              call (SdkSignMessage text (address a)) (fun w => w) ;;
              sdk <- gets elytroSDK ;;
              await (sdk_signMessage env sdk text (address a))
          | _ => throw (EthRpcError InvalidParams None)
          end
    end).

Definition compute_hash (typedData : string + list TTypedDataItem) : M (option string) :=
  match typedData with
  | inl text =>
      parsed <- lift (JSON_parse env text) ;;
      lift (hashSignTypedData env parsed)
  | inr items => lift (hashEarlyTypedData env items)
  end.

Definition signTypedData (typedData : string + list TTypedDataItem) : M (promise string) :=
  async (
    try_catch
      (hash <- compute_hash typedData ;;
       match hash with
       | Some h =>
           if h =? "" then throw (JsError "Elytro: Cannot generate hash for typed data")
           else (p <- signMessage (JString h) ;; await p)
       | None => throw (JsError "Elytro: Cannot generate hash for typed data")
       end)
      (fun error => throw (EthRpcError Internal (exn_message error)))).

(** Declared without [async]: the caller gets the list itself. *)
Definition getLatestHistories : M (list (list (string * string))) :=
  initialized <- gets (fun w => isInitialized (historyManager w)) ;;
  (if initialized then ret tt
   else
     account <- gets (fun w => currentAccount (accountManager w)) ;;
     call (HistorySwitchAccount account)
       (fun w => with_historyManager
                   (history_switchAccount env account (historyManager w)) w)) ;;
  items <- gets (fun w => histories (historyManager w)) ;;
  ret (map (fun item => set_field "status" (status item) (data item)) items).

Definition _onChainConfigChanged : M (promise unit) :=
  async (
    chainConfig <- gets (fun w => currentChain (chainService w)) ;;
    match chainConfig with
    | None => throw (JsError "Elytro: No current chain config")
    | Some config =>
        call (SdkReset config) (with_elytroSDK (Some config)) ;;
        call (ClientInit config) (with_walletClient (Some config)) ;;
        hex <- lift (Hex.numberToHex (chain_id config)) ;;
        let msg := {| event_name := "chainChanged"; event_payload := ChainIdHex hex |} in
        call (SessionBroadcast msg)
          (fun w => with_sessionManager (broadcastMessage msg (sessionManager w)) w)
    end).

Definition getCurrentChain : M (promise (option TChainItem)) :=
  async (gets (fun w => currentChain (chainService w))).

Definition getChains : M (promise (list TChainItem)) :=
  async (gets (fun w => chains (chainService w))).

(** [this._onChainConfigChanged()] is called without [await]: its promise is
    dropped, so a rejection does not reach the caller. *)
Definition updateChainConfig (chainId : N) (config : PartialChain) : M (promise unit) :=
  async (
    call (ChainUpdate chainId config)
      (fun w => with_chainService
                  (chain_updateChain env chainId config (chainService w)) w) ;;
    current <- gets (is_current_chain chainId) ;;
    if current then (_ <- _onChainConfigChanged ;; ret tt) else ret tt).

Definition getAccounts : M (promise (list Account)) :=
  async (gets (fun w => accounts (accountManager w))).

Definition getCurrentAccount : M (promise (Account * string)) :=
  async (
    basicInfo <- gets (fun w => currentAccount (accountManager w)) ;;
    match basicInfo with
    | None => throw (JsError "Elytro: No current account")
    | Some info =>
        (if isDeployed info then ret tt
         else
           call (SdkIsDeployed (address info)) (fun w => w) ;;
           sdk <- gets elytroSDK ;;
           deployed <- await (sdk_isSmartAccountDeployed env sdk (address info)) ;;
           if deployed
           then call AccountActivateCurrent
                  (fun w => with_accountManager
                              (account_activateCurrentAccount env (accountManager w)) w)
           else ret tt) ;;
        call (ClientGetBalance (address info)) (fun w => w) ;;
        client <- gets walletClient ;;
        balanceBn <- await (client_getBalance env client (address info)) ;;
        ret (info, formatEther env balanceBn)
    end).

Definition _switchChain (chainId : N) : M (promise unit) :=
  async (
    current <- gets (is_current_chain chainId) ;;
    if current then ret tt
    else
      svc <- gets chainService ;;
      let (svc', newChainConfig) := chain_switchChain env chainId svc in
      call (ChainSwitch chainId) (with_chainService svc') ;;
      match newChainConfig with
      | Some _ => _ <- _onChainConfigChanged ;; ret tt
      | None => ret tt
      end).

(** [this._switchChain(chainId)] is called without [await]. *)
Definition createAccount (chainId : N) : M (promise unit) :=
  async (
    keyringOwner <- gets (fun w => owner (keyring w)) ;;
    match keyringOwner with
    | None => throw (JsError "Elytro: No owner address. Try create owner first.")
    | Some o =>
        match owner_address o with
        | None => throw (JsError "Elytro: No owner address. Try create owner first.")
        | Some ownerAddress =>
            if ownerAddress =? ""
            then throw (JsError "Elytro: No owner address. Try create owner first.")
            else
              _switchChain chainId ;;
              call (AccountCreateAsCurrent ownerAddress chainId)
                (fun w => with_accountManager
                            (account_createAccountAsCurrent env ownerAddress chainId
                               (accountManager w)) w)
        end
    end).

(** [this._switchChain(chainId)] is called without [await]. *)
Definition switchAccountByChain (chainId : N) : M (promise unit) :=
  async (
    _switchChain chainId ;;
    call (AccountSwitchByChainId chainId)
      (fun w => with_accountManager
                  (account_switchAccountByChainId env chainId (accountManager w)) w) ;;
    account <- gets (fun w => currentAccount (accountManager w)) ;;
    call (HistorySwitchAccount account)
      (fun w => with_historyManager
                  (history_switchAccount env account (historyManager w)) w) ;;
    msg <- gets accountsChanged ;;
    call (SessionBroadcast msg)
      (fun w => with_sessionManager (broadcastMessage msg (sessionManager w)) w)).

Definition decodeUserOp (userOp : Format.object) : M (promise Format.object) :=
  async (
    call (SdkDecodeUserOperation userOp) (fun w => w) ;;
    sdk <- gets elytroSDK ;;
    decoded <- await (sdk_getDecodedUserOperation env sdk userOp) ;;
    ret (Format.formatObjectWithBigInt decoded)).

Definition estimateGas (userOp : Format.object) : M (promise Format.object) :=
  async (
    call (SdkEstimateGas userOp) (fun w => w) ;;
    sdk <- gets elytroSDK ;;
    estimated <- await (sdk_estimateGas env sdk userOp true) ;;
    ret (Format.formatObjectWithBigInt estimated)).

End WalletController.

(* ================================================================== *)
(** ** The declarations of the class *)
(* ================================================================== *)

Inductive visibility : Type :=
| Public
| Private.

(** A method of [class WalletController] as declared: its name, its
    visibility modifier and whether it carries [async]. *)
Record method_decl : Type := {
  method_name : string;
  method_visibility : visibility;
  declared_async : bool
}.

Definition public_async (name : string) : method_decl :=
  {| method_name := name; method_visibility := Public; declared_async := true |}.

Definition private_async (name : string) : method_decl :=
  {| method_name := name; method_visibility := Private; declared_async := true |}.

Definition public_plain (name : string) : method_decl :=
  {| method_name := name; method_visibility := Public; declared_async := false |}.

(** The methods of the class, in the order of the source. *)
Definition WalletController_methods : list method_decl :=
  [ public_async "createNewOwner";
    public_async "getLockStatus";
    public_async "lock";
    public_async "unlock";
    public_async "getCurrentApproval";
    public_async "resolveApproval";
    public_async "rejectApproval";
    public_async "connectWallet";
    public_async "signUserOperation";
    public_async "sendUserOperation";
    public_async "signMessage";
    public_async "signTypedData";
    public_async "addNewHistory";
    public_plain "getLatestHistories";
    private_async "_onChainConfigChanged";
    public_async "getCurrentChain";
    public_async "getChains";
    public_async "updateChainConfig";
    public_async "addChain";
    public_async "deleteChain";
    public_async "getAccounts";
    public_async "getCurrentAccount";
    public_async "createAccount";
    private_async "_switchChain";
    public_async "switchAccountByChain";
    public_async "createDeployUserOp";
    public_async "createTxUserOp";
    public_async "decodeUserOp";
    public_async "estimateGas";
    public_async "packUserOp";
    public_async "getENSInfoByName";
    public_async "removeAccount" ].

Definition is_public (m : method_decl) : bool :=
  match method_visibility m with
  | Public => true
  | Private => false
  end.

(** The public methods that are not declared [async]. *)
Definition synchronous_public_methods : list string :=
  map method_name
    (filter (fun m => is_public m && negb (declared_async m)) WalletController_methods).

(* ================================================================== *)
(** ** A concrete set of collaborators, to run the controller *)
(* ================================================================== *)

Module Sample.

Definition merge (config : PartialChain) (c : TChainItem) : TChainItem :=
  {| chain_id := match upd_id config with Some i => i | None => chain_id c end;
     rpcUrl := match upd_rpcUrl config with Some u => u | None => rpcUrl c end;
     displayName :=
       match upd_displayName config with Some d => d | None => displayName c end |}.

Definition merge_if (chainId : N) (config : PartialChain) (c : TChainItem) : TChainItem :=
  if (chain_id c =? chainId)%N then merge config c else c.

(** Modelled from the spec: [chainService.updateChain] of
    [./services/chain], which is not among the sources: the chain with the
    given id takes the fields of the partial config. *)
Definition updateChain (chainId : N) (config : PartialChain) (svc : ChainService) : ChainService :=
  {| chains := map (merge_if chainId config) (chains svc);
     currentChain := option_map (merge_if chainId config) (currentChain svc) |}.

(** Modelled from the spec: [chainService.switchChain] of
    [./services/chain], which is not among the sources:
    [switchChain(id) -> ChainConfig | null], null if unchanged (a no-op);
    the current chain is one of the configured chains, selected by id. *)
Definition switchChain (chainId : N) (svc : ChainService) : ChainService * option TChainItem :=
  match find (fun c => (chain_id c =? chainId)%N) (chains svc) with
  | Some c =>
      match currentChain svc with
      | Some cur =>
          if (chain_id cur =? chainId)%N then (svc, None)
          else ({| chains := chains svc; currentChain := Some c |}, Some c)
      | None => ({| chains := chains svc; currentChain := Some c |}, Some c)
      end
  | None => (svc, None)
  end.

(** Modelled from the spec: [accountManager.createAccountAsCurrent] of
    [./services/account], which is not among the sources: creates and
    activates a new account for that chain under the owner's address.  The
    address the SDK derives for the account is stood for by the owner's
    address followed by the chain id. *)
Definition createAccountAsCurrent (ownerAddress : string) (chainId : N)
  (am : AccountManager) : AccountManager :=
  let a := {| address := ownerAddress ++ "@" ++ Hex.toHex chainId;
              account_chainId := chainId; isDeployed := false |} in
  {| accounts := accounts am ++ [a]; currentAccount := Some a |}.

(** Modelled from the spec: [accountManager.switchAccountByChainId] of
    [./services/account], which is not among the sources: the current
    account becomes the account of that chain. *)
Definition switchAccountByChainId (chainId : N) (am : AccountManager) : AccountManager :=
  {| accounts := accounts am;
     currentAccount := find (fun a => (account_chainId a =? chainId)%N) (accounts am) |}.

Definition activate (a : Account) : Account :=
  {| address := address a; account_chainId := account_chainId a; isDeployed := true |}.

Definition activateCurrentAccount (am : AccountManager) : AccountManager :=
  {| accounts := accounts am; currentAccount := option_map activate (currentAccount am) |}.

(** Modelled from the spec: [historyManager.switchAccount] of
    [./services/history], which is not among the sources: switching account
    swaps the active history list; the stored list of the new account is
    taken to be empty. *)
Definition switchAccount (account : option Account) (h : HistoryManager) : HistoryManager :=
  {| isInitialized := true; histories := [] |}.

(** A parser that accepts exactly the texts that start with a brace. *)
Definition parse (text : string) : completion jsvalue :=
  match text with
  | String "{" _ => Returned (JObject [("raw", text)])
  | _ => Thrown (JsError "Unexpected token in JSON")
  end.

Definition hashObject (v : jsvalue) : completion (option string) :=
  match v with
  | JObject (("raw", text) :: _) => Returned (Some ("0x" ++ text))
  | _ => Thrown (JsError "Invalid typed data")
  end.

Definition hashItems (items : list TTypedDataItem) : completion (option string) :=
  match items with
  | [] => Returned None
  | item :: _ => Returned (Some ("0x" ++ item_value item))
  end.

Definition sign (sdk : option TChainItem) (message signer : string) : promise string :=
  Fulfilled ("signed:" ++ message ++ ":" ++ signer).

Definition collaborators : Collaborators :=
  {| connection_connect := fun dApp chainId l => (l ++ [(dApp, chainId)])%list;
     chain_updateChain := updateChain;
     chain_switchChain := switchChain;
     account_createAccountAsCurrent := createAccountAsCurrent;
     account_switchAccountByChainId := switchAccountByChainId;
     account_activateCurrentAccount := activateCurrentAccount;
     history_switchAccount := switchAccount;
     sdk_signMessage := sign;
     sdk_signUserOperation := fun _ _ => Fulfilled (JString "0xsignature");
     sdk_sendUserOperation := fun _ _ => Fulfilled (JString "0xophash");
     sdk_getDecodedUserOperation := fun _ op => Fulfilled op;
     sdk_estimateGas := fun _ op _ => Fulfilled op;
     sdk_isSmartAccountDeployed := fun _ _ => Fulfilled false;
     client_getBalance := fun _ _ => Fulfilled 0%N;
     formatEther := Hex.toHex;
     JSON_parse := parse;
     hashSignTypedData := hashObject;
     hashEarlyTypedData := hashItems;
     default_message := fun code =>
       match code with
       | Internal => "Internal JSON-RPC error."
       | InvalidParams => "Invalid method parameter(s)."
       end;
     default_bigint_keys :=
       ["nonce"; "callGasLimit"; "verificationGasLimit"; "preVerificationGas";
        "maxFeePerGas"; "maxPriorityFeePerGas"] |}.

Definition sepolia : TChainItem :=
  {| chain_id := 11155111; rpcUrl := "https://rpc.sepolia.example";
     displayName := "Sepolia" |}.

Definition optimism : TChainItem :=
  {| chain_id := 10; rpcUrl := "https://rpc.optimism.example";
     displayName := "OP Mainnet" |}.

Definition alice : Account :=
  {| address := "0xA11ce"; account_chainId := 11155111; isDeployed := false |}.

Definition alice_on_optimism : Account :=
  {| address := "0xA11ce10"; account_chainId := 10; isDeployed := true |}.

Definition unlock_request : Approval :=
  {| approval_id := "approval-1"; approval_type := "unlock";
     approval_data := JNull; approval_origin := "https://dapp.example" |}.

(** A wallet with an owner, two chains (Sepolia current), an account on
    each, two connected sessions and one pending approval. *)
Definition world : World :=
  {| keyring := {| owner := Some {| owner_address := Some "0x0wner" |};
                   locked := false |};
     approvalService := {| currentApproval := Some unlock_request; settled := [] |};
     connectionManager := [];
     sessionManager := [ {| origin := "https://dapp.example"; inbox := [] |};
                         {| origin := "https://other.example"; inbox := [] |} ];
     chainService := {| chains := [sepolia; optimism]; currentChain := Some sepolia |};
     accountManager := {| accounts := [alice; alice_on_optimism];
                          currentAccount := Some alice |};
     historyManager := {| isInitialized := false; histories := [] |};
     elytroSDK := Some sepolia;
     walletClient := Some sepolia;
     trace := [] |}.

(** The same wallet before any account exists. *)
Definition fresh_world : World :=
  with_accountManager {| accounts := []; currentAccount := None |} world.

(** The same wallet before the owner is created. *)
Definition ownerless_world : World :=
  {| keyring := {| owner := None; locked := true |};
     approvalService := approvalService world;
     connectionManager := connectionManager world;
     sessionManager := sessionManager world;
     chainService := chainService world;
     accountManager := accountManager fresh_world;
     historyManager := historyManager world;
     elytroSDK := elytroSDK world;
     walletClient := walletClient world;
     trace := [] |}.

Definition dapp : TDAppInfo :=
  {| dapp_origin := Some "https://dapp.example"; dapp_name := "Example";
     dapp_icon := "icon.png" |}.

Definition userOp : Format.object :=
  [ ("sender", Format.FString "0x00a11ce");
    ("nonce", Format.FBigInt 7);
    ("callGasLimit", Format.FBigInt 100000);
    ("maxFeePerGas", Format.FBigInt 1500000000);
    ("maxPriorityFeePerGas", Format.FBigInt 0);
    ("signature", Format.FString "0x") ].

End Sample.

(* ================================================================== *)
(** ** Vocabulary of the properties *)
(* ================================================================== *)

(** The id of the chain is a number [toHex] renders. *)
Definition safe_id (c : TChainItem) : bool :=
  (chain_id c <=? Hex.max_safe_integer)%N.

(** The session events of the chain-config-changed routine for the chain
    [c]: [chainChanged] with the id in hexadecimal, when [toHex] renders the
    id; none otherwise. *)
Definition chain_config_changed_messages (c : TChainItem) : list Message :=
  if safe_id c
  then [{| event_name := "chainChanged";
           event_payload := ChainIdHex (Hex.toHex (chain_id c)) |}]
  else [].

(** The calls of the chain-config-changed routine for the chain [c]: SDK
    reset, chain client initialisation and, when [toHex] renders the id,
    [chainChanged] to all sessions. *)
Definition chain_config_changed_calls (c : TChainItem) : list event :=
  SdkReset c :: ClientInit c :: map SessionBroadcast (chain_config_changed_messages c).

(** A call of the chain-config-changed routine. *)
Definition is_reinitialization (ev : event) : bool :=
  match ev with
  | SdkReset _ | ClientInit _ | SessionBroadcast _ => true
  | _ => false
  end.

(** The chain whose chain-config-changed routine a chain switch to
    [chainId] runs, if it runs one: none when [chainId] is current already,
    none when the chain service returns null. *)
Definition switched_to (env : Collaborators) (chainId : N) (w : World) : option TChainItem :=
  if is_current_chain chainId w then None
  else
    match chain_switchChain env chainId (chainService w) with
    | (svc', Some _) => currentChain svc'
    | (_, None) => None
    end.

(** The calls of the chain-switch step. *)
Definition switch_chain_calls (env : Collaborators) (chainId : N) (w : World) : list event :=
  if is_current_chain chainId w then []
  else
    ChainSwitch chainId ::
    match switched_to env chainId w with
    | Some c => chain_config_changed_calls c
    | None => []
    end.

(** The session events of the chain-switch step. *)
Definition switch_chain_messages (env : Collaborators) (chainId : N) (w : World)
  : list Message :=
  match switched_to env chainId w with
  | Some c => chain_config_changed_messages c
  | None => []
  end.

(** The chain service after the chain-switch step. *)
Definition switch_chain_service (env : Collaborators) (chainId : N) (w : World)
  : ChainService :=
  if is_current_chain chainId w then chainService w
  else fst (chain_switchChain env chainId (chainService w)).



(** [keyring.owner?.address] when it is truthy. *)
Definition owner_address_of (w : World) : option string :=
  match owner (keyring w) with
  | Some o =>
      match owner_address o with
      | Some a => if a =? "" then None else Some a
      | None => None
      end
  | None => None
  end.

(** The hash of a typed-data request: the string-input strategy
    ([hashSignTypedData] of the parsed text) for a serialized string, the
    list strategy ([hashEarlyTypedData]) for a structured list. *)
Definition typed_data_hash (env : Collaborators) (typedData : string + list TTypedDataItem)
  : completion (option string) :=
  match typedData with
  | inl text =>
      match JSON_parse env text with
      | Returned parsed => hashSignTypedData env parsed
      | Thrown e => Thrown e
      end
  | inr items => hashEarlyTypedData env items
  end.

(** The internal RPC error that carries the message of [e]. *)
Definition normalized (env : Collaborators) (e : exn) : exn :=
  EthRpcError Internal (exn_message env e).

(** Each session of [before] is still there in [after], with [msgs]
    appended to its inbox when [selected], and with its inbox as it was
    otherwise. *)
Definition delivered (selected : Session -> Prop) (msgs : list Message)
  (before after : list Session) : Prop :=
  Forall2 (fun s s' =>
             origin s' = origin s /\
             (selected s -> inbox s' = (inbox s ++ msgs)%list) /\
             (~ selected s -> inbox s' = inbox s))
    before after.

(** [id] is not the id of the pending approval; so is every id when no
    approval is pending. *)
Definition stale (id : string) (w : World) : bool :=
  negb (pending id (approvalService w)).

(* ================================================================== *)
(** ** The other methods of the controller *)
(* ================================================================== *)

(** [Transaction] of the SDK. *)
Record Transaction : Type := {
  tx_to : string;
  tx_value : option string;
  tx_data : option string
}.

(** What the remaining methods consume from the keyring, the history
    manager, the chain service, the account manager, the SDK, the chain
    client and the language ([BigInt]).  A call that returns nothing may
    throw; a call that is awaited hands back a promise.  The calls of these
    methods are not recorded in [trace]; their properties are stated on
    results and states. *)
Record Services : Type := {
  keyring_createNewOwner : string -> Keyring -> promise Owner * Keyring;
  keyring_tryUnlock : Keyring -> promise unit * Keyring;
  keyring_lock : Keyring -> promise unit * Keyring;
  keyring_unlock : string -> Keyring -> promise unit * Keyring;
  history_add : list (string * string) -> HistoryManager -> completion unit * HistoryManager;
  chain_addChain : TChainItem -> ChainService -> completion unit * ChainService;
  chain_deleteChain : N -> ChainService -> completion unit * ChainService;
  account_removeAccountByAddress :
    string -> AccountManager -> promise unit * AccountManager;
  sdk_createUnsignedDeployWalletUserOp : option TChainItem -> string -> promise Format.object;
  sdk_createUserOpFromTxs :
    option TChainItem -> option string -> list Transaction -> promise Format.object;
  sdk_getRechargeAmountForUserOp :
    option TChainItem -> Format.object -> N -> promise (Format.object * Format.object);
  client_getENSAddressByName : option TChainItem -> string -> promise (option string);
  client_getENSAvatarByName : option TChainItem -> string -> promise (option string);
  js_BigInt : string -> completion N
}.

Definition with_keyring (k : Keyring) (w : World) : World :=
  {| keyring := k; approvalService := approvalService w;
     connectionManager := connectionManager w;
     sessionManager := sessionManager w; chainService := chainService w;
     accountManager := accountManager w; historyManager := historyManager w;
     elytroSDK := elytroSDK w; walletClient := walletClient w;
     trace := trace w |}.

(** A call on a collaborator that answers [A] and leaves the part [S] of
    the world it owns in a new state. *)
Definition on {S A : Type} (get : World -> S) (set : S -> World -> World)
  (f : S -> A * S) : M A :=
  fun w => let (a, s') := f (get w) in (Returned a, set s' w).

(** [{ ...obj }.key] *)
Fixpoint get_field (key : string) (obj : list (string * string)) : option string :=
  match obj with
  | [] => None
  | (k, v) :: rest => if k =? key then Some v else get_field key rest
  end.

(** The result of [getENSInfoByName]. *)
Record ENSInfo : Type := {
  ens_name : string;
  ens_address : option string;
  ens_avatar : option string
}.

(** The result of [packUserOp]. *)
Record Packed : Type := {
  packed_userOp : Format.object;
  packed_calcResult : Format.object
}.

Section OtherMethods.

Variable svc : Services.

Definition createNewOwner (password : string) : M (promise Owner) :=
  async (
    p <- on keyring with_keyring (keyring_createNewOwner svc password) ;;
    await p).

Definition getLockStatus : M (promise bool) :=
  async (
    p <- on keyring with_keyring (keyring_tryUnlock svc) ;;
    await p ;;
    gets (fun w => locked (keyring w))).

Definition lock : M (promise unit) :=
  async (
    p <- on keyring with_keyring (keyring_lock svc) ;;
    await p).

Definition unlock (password : string) : M (promise unit) :=
  async (
    p <- on keyring with_keyring (keyring_unlock svc password) ;;
    await p).

Definition addNewHistory (entry : list (string * string)) : M (promise unit) :=
  async (
    c <- on historyManager with_historyManager (history_add svc entry) ;;
    lift c).

Definition addChain (chain : TChainItem) : M (promise unit) :=
  async (
    c <- on chainService with_chainService (chain_addChain svc chain) ;;
    lift c).

Definition deleteChain (chainId : N) : M (promise unit) :=
  async (
    c <- on chainService with_chainService (chain_deleteChain svc chainId) ;;
    lift c).

Definition createDeployUserOp : M (promise Format.object) :=
  async (
    keyringOwner <- gets (fun w => owner (keyring w)) ;;
    match keyringOwner with
    | None => throw (JsError "Elytro: No owner address. Try create owner first.")
    | Some o =>
        match owner_address o with
        | None => throw (JsError "Elytro: No owner address. Try create owner first.")
        | Some ownerAddress =>
            if ownerAddress =? ""
            then throw (JsError "Elytro: No owner address. Try create owner first.")
            else
              sdk <- gets elytroSDK ;;
              deployUserOp <-
                await (sdk_createUnsignedDeployWalletUserOp svc sdk ownerAddress) ;;
              ret (Format.formatObjectWithBigInt deployUserOp)
        end
    end).

Definition createTxUserOp (txs : list Transaction) : M (promise Format.object) :=
  async (
    sender <- gets (fun w => option_map address (currentAccount (accountManager w))) ;;
    sdk <- gets elytroSDK ;;
    userOp <- await (sdk_createUserOpFromTxs svc sdk sender txs) ;;
    ret (Format.formatObjectWithBigInt userOp)).

Definition packUserOp (userOp : Format.object) (amount : string) : M (promise Packed) :=
  async (
    value <- lift (js_BigInt svc amount) ;;
    sdk <- gets elytroSDK ;;
    res <- await (sdk_getRechargeAmountForUserOp svc sdk userOp value) ;;
    ret {| packed_userOp := Format.formatObjectWithBigInt (fst res);
           packed_calcResult := Format.formatObjectWithBigInt (snd res) |}).

Definition getENSInfoByName (name : string) : M (promise ENSInfo) :=
  async (
    client <- gets walletClient ;;
    found <- await (client_getENSAddressByName svc client name) ;;
    client' <- gets walletClient ;;
    avatar <- await (client_getENSAvatarByName svc client' name) ;;
    ret {| ens_name := name; ens_address := found; ens_avatar := avatar |}).

Definition removeAccount (account : string) : M (promise unit) :=
  async (
    p <- on accountManager with_accountManager
           (account_removeAccountByAddress svc account) ;;
    await p).

End OtherMethods.

(* ================================================================== *)
(** ** The side-panel page [CreateNewAddress] *)
(* ================================================================== *)

Module CreateNewAddress.


(** What the page does that can be seen from outside: state setters,
    toasts, calls through the wallet proxy and the contexts, the timer that
    navigates to the dashboard, the console. *)
Inductive effect : Type :=
| SetSelectedChain (chain : option TChainItem)
| Toast (title description : string)
| SetIsLoading (loading : bool)
| WalletCreateAccount (chainId : N)
| GetCurrentChain
| GetAccounts
| UpdateAccount
| UpdateTokens
| NavigateLater (delay : N)
| ConsoleError (error : exn).

(** The state of the component, the background process behind the wallet
    proxy, and the effects so far. *)
Record Page : Type := {
  isLoading : bool;
  selectedChain : option TChainItem;
  background : World;
  effects : list effect
}.

(** The hooks of the component: the wallet proxy ([useWallet]) and the
    context functions ([useChain], [useAccount]).  Each hands back a promise
    and may change the background process. *)
Record Hooks : Type := {
  wallet_createAccount : N -> World -> promise unit * World;
  ctx_getCurrentChain : World -> promise unit * World;
  ctx_getAccounts : World -> promise unit * World;
  ctx_updateAccount : World -> promise unit * World;
  ctx_updateTokens : World -> promise unit * World
}.

Definition UI (A : Type) : Type := Page -> completion A * Page.

Definition ui_ret {A : Type} (a : A) : UI A :=
  fun p => (Returned a, p).

Definition ui_throw {A : Type} (e : exn) : UI A :=
  fun p => (Thrown e, p).

Definition ui_bind {A B : Type} (m : UI A) (k : A -> UI B) : UI B :=
  fun p =>
    match m p with
    | (Returned a, p') => k a p'
    | (Thrown e, p') => (Thrown e, p')
    end.

Definition ui_await {A : Type} (pr : promise A) : UI A :=
  match pr with
  | Fulfilled a => ui_ret a
  | Rejected e => ui_throw e
  end.

Definition ui_async {A : Type} (body : UI A) : UI (promise A) :=
  fun p => let (c, p') := body p in (Returned (settle c), p').

Definition emit (e : effect) : UI unit :=
  fun p => (Returned tt,
            {| isLoading := isLoading p; selectedChain := selectedChain p;
               background := background p; effects := effects p ++ [e] |}).

Definition setIsLoading (loading : bool) : UI unit :=
  fun p => (Returned tt,
            {| isLoading := loading; selectedChain := selectedChain p;
               background := background p;
               effects := effects p ++ [SetIsLoading loading] |}).


(** A call through the proxy or a context. *)
Definition remote {A : Type} (f : World -> promise A * World) : UI (promise A) :=
  fun p => let (pr, w') := f (background p) in
           (Returned pr,
            {| isLoading := isLoading p; selectedChain := selectedChain p;
               background := w'; effects := effects p |}).

(** [try { body } catch (error) { handler error } finally { finalizer }] *)
Definition try_catch_finally {A : Type} (body : UI A) (handler : exn -> UI A)
  (finalizer : UI unit) : UI A :=
  fun p =>
    let (c, p1) :=
      match body p with
      | (Returned a, p') => (Returned a, p')
      | (Thrown e, p') => handler e p'
      end in
    match finalizer p1 with
    | (Returned _, p2) => (c, p2)
    | (Thrown e, p2) => (Thrown e, p2)
    end.

Declare Scope ui_scope.
Delimit Scope ui_scope with ui.
Notation "x <- m ;; k" := (ui_bind m (fun x => k))
  (at level 61, m at next level, right associativity) : ui_scope.
Notation "m ;; k" := (ui_bind m (fun _ => k))
  (at level 61, right associativity) : ui_scope.
Local Open Scope ui_scope.


Section Component.

Variable hooks : Hooks.

Definition handleAfterCreating : UI (promise unit) :=
  ui_async (
    emit GetCurrentChain ;;
    p1 <- remote (ctx_getCurrentChain hooks) ;; ui_await p1 ;;
    emit GetAccounts ;;
    p2 <- remote (ctx_getAccounts hooks) ;; ui_await p2 ;;
    emit UpdateAccount ;;
    p3 <- remote (ctx_updateAccount hooks) ;; ui_await p3 ;;
    emit UpdateTokens ;;
    p4 <- remote (ctx_updateTokens hooks) ;; ui_await p4).

(** [currentChain?.id === selectedChain.id] *)
Definition on_this_network (currentChain : option TChainItem) (chain : TChainItem) : bool :=
  match currentChain with
  | Some c => (chain_id c =? chain_id chain)%N
  | None => false
  end.

(** [currentChain] is the value of the chain context the handler was created
    with; [selectedChain] is the state of the component. *)
Definition handleCreate (currentChain : option TChainItem) : UI (promise unit) :=
  ui_async (
    fun page =>
      match selectedChain page with
      | None => ui_ret tt page
      | Some chain =>
          if on_this_network currentChain chain
          then emit (Toast "Create address failed" "You are already on this network") page
          else
            try_catch_finally
              (setIsLoading true ;;
               created <- (emit (WalletCreateAccount (chain_id chain)) ;;
                           remote (wallet_createAccount hooks (chain_id chain))) ;;
               ui_await created ;;
               refreshed <- handleAfterCreating ;;
               ui_await refreshed ;;
               emit (NavigateLater 300))
              (fun error => emit (ConsoleError error))
              (setIsLoading false)
              page
      end).

End Component.

(** The new effects of a run. *)
Definition added (p p' : Page) : list effect :=
  skipn (List.length (effects p)) (effects p').

Definition is_navigation (e : effect) : bool :=
  match e with
  | NavigateLater _ => true
  | _ => false
  end.

Definition is_console_error (e : effect) : bool :=
  match e with
  | ConsoleError _ => true
  | _ => false
  end.

Definition is_wallet_call (e : effect) : bool :=
  match e with
  | WalletCreateAccount _ => true
  | _ => false
  end.

(** The context calls of [handleAfterCreating], in their order. *)
Definition refresh_effects : list effect :=
  [GetCurrentChain; GetAccounts; UpdateAccount; UpdateTokens].

(** The wallet proxy over the controller of the background process. *)
Definition proxied {A : Type} (method : M (promise A)) (w : World) : promise A * World :=
  match method w with
  | (Returned p, w') => (p, w')
  | (Thrown e, w') => (Rejected e, w')
  end.

End CreateNewAddress.

(* ================================================================== *)
(** ** More collaborators to run the controller and the page *)
(* ================================================================== *)

Module Sample2.

Definition readBigInt (s : string) : completion N :=
  match Hex.fromHex s with
  | Some n => Returned n
  | None => Thrown (JsError ("Cannot convert " ++ s ++ " to a BigInt"))
  end.

Definition services : Services :=
  {| keyring_createNewOwner := fun password k =>
       (Fulfilled {| owner_address := Some ("0x" ++ password) |},
        {| owner := Some {| owner_address := Some ("0x" ++ password) |};
           locked := false |});
     keyring_tryUnlock := fun k => (Fulfilled tt, k);
     keyring_lock := fun k => (Fulfilled tt, {| owner := owner k; locked := true |});
     keyring_unlock := fun password k =>
       if password =? "secret"
       then (Fulfilled tt, {| owner := owner k; locked := false |})
       else (Rejected (JsError "Incorrect password"), k);
     history_add := fun entry h =>
       (Returned tt,
        {| isInitialized := isInitialized h;
           histories := ({| data := entry; status := "pending" |} :: histories h)%list |});
     chain_addChain := fun chain s =>
       (Returned tt, {| chains := (chains s ++ [chain])%list;
                        currentChain := currentChain s |});
     chain_deleteChain := fun chainId s =>
       (Returned tt,
        {| chains := filter (fun c => negb (chain_id c =? chainId)%N) (chains s);
           currentChain := currentChain s |});
     account_removeAccountByAddress := fun account am =>
       (Fulfilled tt,
        {| accounts := filter (fun a => negb (address a =? account)) (accounts am);
           currentAccount := currentAccount am |});
     sdk_createUnsignedDeployWalletUserOp := fun _ ownerAddress =>
       Fulfilled [("sender", Format.FString ownerAddress);
                  ("nonce", Format.FBigInt 0)];
     sdk_createUserOpFromTxs := fun _ sender _ =>
       match sender with
       | Some a => Fulfilled [("sender", Format.FString a); ("nonce", Format.FBigInt 1)]
       | None => Rejected (JsError "sender is required")
       end;
     sdk_getRechargeAmountForUserOp := fun _ userOp amount =>
       Fulfilled (userOp, [("needDeposit", Format.FBool true);
                           ("missAmount", Format.FBigInt amount)]);
     client_getENSAddressByName := fun _ name =>
       if name =? "alice.eth" then Fulfilled (Some "0xA11ce")
       else Rejected (JsError "ENS name not found");
     client_getENSAvatarByName := fun _ _ => Fulfilled None;
     js_BigInt := readBigInt |}.

(** The sample wallet with Alice's deployed account as current account. *)
Definition deployed_world : World :=
  with_accountManager
    {| accounts := [Sample.alice; Sample.alice_on_optimism];
       currentAccount := Some Sample.alice_on_optimism |}
    Sample.world.

(** The sample wallet with two submitted operations. *)
Definition history_world : World :=
  with_historyManager
    {| isInitialized := true;
       histories := [ {| data := [("opHash", "0x01"); ("status", "draft")];
                         status := "confirmed" |};
                      {| data := [("opHash", "0x02")]; status := "pending" |} ] |}
    Sample.world.

(** A chain service that hands back a config but is left without a current
    chain. *)
Definition stuck_switch (chainId : N) (s : ChainService) : ChainService * option TChainItem :=
  ({| chains := chains s; currentChain := None |}, Some Sample.optimism).

Definition stuck_collaborators : Collaborators :=
  {| connection_connect := connection_connect Sample.collaborators;
     chain_updateChain := chain_updateChain Sample.collaborators;
     chain_switchChain := stuck_switch;
     account_createAccountAsCurrent :=
       account_createAccountAsCurrent Sample.collaborators;
     account_switchAccountByChainId :=
       account_switchAccountByChainId Sample.collaborators;
     account_activateCurrentAccount :=
       account_activateCurrentAccount Sample.collaborators;
     history_switchAccount := history_switchAccount Sample.collaborators;
     sdk_signMessage := sdk_signMessage Sample.collaborators;
     sdk_signUserOperation := sdk_signUserOperation Sample.collaborators;
     sdk_sendUserOperation := sdk_sendUserOperation Sample.collaborators;
     sdk_getDecodedUserOperation := sdk_getDecodedUserOperation Sample.collaborators;
     sdk_estimateGas := sdk_estimateGas Sample.collaborators;
     sdk_isSmartAccountDeployed := sdk_isSmartAccountDeployed Sample.collaborators;
     client_getBalance := client_getBalance Sample.collaborators;
     formatEther := formatEther Sample.collaborators;
     JSON_parse := JSON_parse Sample.collaborators;
     hashSignTypedData := hashSignTypedData Sample.collaborators;
     hashEarlyTypedData := hashEarlyTypedData Sample.collaborators;
     default_message := default_message Sample.collaborators;
     default_bigint_keys := default_bigint_keys Sample.collaborators |}.

(** A configured chain whose id is [Number.MAX_SAFE_INTEGER + 1]. *)
Definition far_chain : TChainItem :=
  {| chain_id := 9007199254740992; rpcUrl := "https://rpc.far.example";
     displayName := "Far" |}.

(** The sample wallet with the far chain configured beside Sepolia. *)
Definition far_configured_world : World :=
  with_chainService
    {| chains := [Sample.sepolia; far_chain]; currentChain := Some Sample.sepolia |}
    Sample.world.

(** The sample wallet on the far chain. *)
Definition far_world : World :=
  with_chainService
    {| chains := [Sample.sepolia; far_chain]; currentChain := Some far_chain |}
    Sample.world.

Definition answer (w : World) : promise unit * World := (Fulfilled tt, w).

(** The page over the controller of the background process. *)
Definition hooks : CreateNewAddress.Hooks :=
  {| CreateNewAddress.wallet_createAccount := fun chainId =>
       CreateNewAddress.proxied (createAccount Sample.collaborators chainId);
     CreateNewAddress.ctx_getCurrentChain := answer;
     CreateNewAddress.ctx_getAccounts := answer;
     CreateNewAddress.ctx_updateAccount := answer;
     CreateNewAddress.ctx_updateTokens := answer |}.

Definition page : CreateNewAddress.Page :=
  {| CreateNewAddress.isLoading := false;
     CreateNewAddress.selectedChain := Some Sample.optimism;
     CreateNewAddress.background := Sample.world;
     CreateNewAddress.effects := [] |}.

End Sample2.

(** A run from [w] to [w'] that sent nothing to the sessions and left the
    SDK context and the chain client where they were. *)
Definition quiet (w w' : World) : Prop :=
  sessionManager w' = sessionManager w /\
  elytroSDK w' = elytroSDK w /\
  walletClient w' = walletClient w.

(** The error of a missing owner. *)
Definition no_owner_error : exn :=
  JsError "Elytro: No owner address. Try create owner first.".

(* ================================================================== *)
(** * Properties *)
(* ================================================================== *)

(** ** Hexadecimal rendering *)

Lemma value_digit (d : N) : (d < 16)%N -> Hex.value (Hex.digit d) = Some d.
Proof.
  intros Hd.
  destruct d as [|p]; [reflexivity|].
  do 4 (destruct p as [p|p|]; try reflexivity); lia.
Qed.

(** Reading the digits written for [n] shifts the accumulator by as many
    digits and adds [n]. *)
Lemma read_digits (fuel : nat) :
  forall (n : N) (rest : string),
    (n < 16 ^ N.of_nat fuel)%N ->
    exists k : N, forall acc : N,
      Hex.read (Hex.digits fuel n rest) acc = Hex.read rest (acc * 16 ^ k + n)%N.
Proof.
  induction fuel as [|fuel IH]; intros n rest Hn.
  - exists 0%N. intros acc. simpl in *.
    assert (n = 0%N) by lia. subst n. f_equal. lia.
  - assert (Hmod : (n mod 16 < 16)%N) by (apply N.mod_lt; lia).
    assert (Hdiv : n = (16 * (n / 16) + n mod 16)%N) by (apply N.div_mod; lia).
    cbn [Hex.digits].
    destruct (N.eqb_spec (n / 16) 0) as [Hsmall|Hbig].
    + exists 1%N. intros acc. cbn [Hex.read].
      rewrite (value_digit _ Hmod). f_equal. lia.
    + destruct (IH (n / 16)%N (String (Hex.digit (n mod 16)) rest)) as [k Hk].
      { apply N.Div0.div_lt_upper_bound.
        rewrite Nnat.Nat2N.inj_succ, N.pow_succ_r' in Hn. exact Hn. }
      exists (N.succ k). intros acc.
      rewrite Hk. cbn [Hex.read]. rewrite (value_digit _ Hmod).
      f_equal. rewrite N.pow_succ_r'. lia.
Qed.

Lemma digits_nonempty (fuel : nat) :
  forall (n : N) (rest : string),
    (0 < fuel)%nat \/ rest <> EmptyString ->
    exists c s, Hex.digits fuel n rest = String c s.
Proof.
  induction fuel as [|fuel IH]; intros n rest H.
  - destruct H as [H|H]; [lia|].
    destruct rest as [|c s]; [congruence|]. now exists c, s.
  - cbn [Hex.digits]. destruct (n / 16 =? 0)%N.
    + now eexists _, _.
    + apply IH. right. discriminate.
Qed.

Lemma enough_digits (n : N) : (n < 16 ^ N.of_nat (S (N.to_nat (N.log2 n))))%N.
Proof.
  rewrite Nnat.Nat2N.inj_succ, Nnat.N2Nat.id.
  destruct n as [|p]; [reflexivity|].
  apply N.lt_le_trans with (2 ^ N.succ (N.log2 (N.pos p)))%N.
  - apply N.log2_spec. lia.
  - apply N.pow_le_mono_l. lia.
Qed.

(** [BigInt(toHex(n)) === n] *)
Lemma fromHex_toHex (n : N) : Hex.fromHex (Hex.toHex n) = Some n.
Proof.
  unfold Hex.toHex.
  destruct (digits_nonempty (S (N.to_nat (N.log2 n))) n "") as (c & s & Hshape);
    [left; lia|].
  destruct (read_digits _ n "" (enough_digits n)) as [k Hk].
  cbn [append]. rewrite Hshape. cbn [Hex.fromHex]. rewrite <- Hshape, Hk.
  cbn [Hex.read]. f_equal.
Qed.

Lemma isHex_toHex (n : N) : Hex.isHex (Hex.toHex n) = true.
Proof. unfold Hex.isHex. now rewrite fromHex_toHex. Qed.

(** ** Traces and sessions *)

Lemma skipn_prefix {A : Type} (l evs : list A) :
  skipn (List.length l) (l ++ evs) = evs.
Proof. induction l as [|x l IH]; [reflexivity|exact IH]. Qed.

Lemma emitted_app (w w' : World) (evs : list event) :
  trace w' = (trace w ++ evs)%list -> emitted w w' = evs.
Proof. unfold emitted. intros ->. apply skipn_prefix. Qed.

Lemma broadcastMessageToDApp_delivered (target : option string) (msg : Message)
  (sessions : list Session) :
  delivered (fun s => target = Some (origin s)) [msg] sessions
    (broadcastMessageToDApp target msg sessions).
Proof.
  unfold delivered, broadcastMessageToDApp.
  induction sessions as [|s sessions IH]; cbn [map]; [constructor|].
  constructor; [|exact IH].
  unfold addressed. destruct target as [o|].
  - destruct (String.eqb_spec (origin s) o) as [Heq|Hneq].
    + subst o. cbn. split; [reflexivity|]. split; [reflexivity|].
      intros H. now destruct H.
    + split; [reflexivity|]. split; [|reflexivity]. intros H. congruence.
  - split; [reflexivity|]. split; [|reflexivity]. intros H. discriminate.
Qed.

Lemma broadcastMessage_delivered (msg : Message) (sessions : list Session) :
  delivered (fun _ => True) [msg] sessions (broadcastMessage msg sessions).
Proof.
  unfold delivered, broadcastMessage.
  induction sessions as [|s sessions IH]; cbn [map]; [constructor|].
  constructor; [|exact IH].
  cbn. split; [reflexivity|]. split; [reflexivity|]. intros H. now destruct H.
Qed.

Lemma delivered_nothing (sessions : list Session) :
  delivered (fun _ => True) [] sessions sessions.
Proof.
  unfold delivered. induction sessions as [|s sessions IH]; [constructor|].
  constructor; [|exact IH].
  split; [reflexivity|]. split; [|reflexivity]. intros _. now rewrite app_nil_r.
Qed.

Lemma delivered_then (first second : list Message) (a b c : list Session) :
  delivered (fun _ => True) first a b ->
  delivered (fun _ => True) second b c ->
  delivered (fun _ => True) (first ++ second) a c.
Proof.
  unfold delivered. intros Hab. revert c.
  induction Hab as [|s s' a b (Ho & Hin & _) Hab IH]; intros c Hbc.
  - inversion Hbc. constructor.
  - inversion Hbc as [|x s'' y c' (Ho' & Hin' & _) Hbc']; subst.
    constructor; [|now apply IH].
    split; [congruence|]. split.
    + intros _. rewrite (Hin' I), (Hin I). now rewrite app_assoc.
    + intros H. now destruct H.
Qed.

(* ================================================================== *)
(** ** The controller, for every behaviour of its collaborators *)
(* ================================================================== *)

Section Properties.

Variable env : Collaborators.

(** C1.  For every dApp info and chain id, [connectWallet] first registers
    the connection with the connection manager and then broadcasts an
    [accountsChanged] event carrying the current account's address to the
    origin of the dApp only: the session of that origin receives the event
    and every session of another origin keeps its inbox as it was. *)
Theorem connectWallet_reaches_only_its_origin :
  forall (dApp : TDAppInfo) (chainId : N) (w : World),
    let run := connectWallet env dApp chainId w in
    let msg := {| event_name := "accountsChanged";
                  event_payload := Addresses [current_address w] |} in
    result run = Returned (Fulfilled tt) /\
    emitted w (after run) =
      [ConnectionConnect dApp chainId;
       SessionBroadcastToDApp (dapp_origin dApp) msg] /\
    connectionManager (after run) =
      connection_connect env dApp chainId (connectionManager w) /\
    delivered (fun s => dapp_origin dApp = Some (origin s)) [msg]
      (sessionManager w) (sessionManager (after run)).
Proof.
  intros dApp chainId w. cbv zeta.
  unfold connectWallet, async, bind, call, gets, result, after. cbn.
  repeat split.
  - apply emitted_app. cbn. now rewrite <- app_assoc.
  - apply broadcastMessageToDApp_delivered.
Qed.

(** C10.  [connectWallet] never raises a missing-current-account error:
    its promise is fulfilled in every world, and when the account manager
    has no current account it still registers the connection and broadcasts
    [accountsChanged] with a one-element payload holding an undefined
    address, where [signMessage] and [getCurrentAccount] reject. *)
Theorem connectWallet_without_current_account :
  forall (dApp : TDAppInfo) (chainId : N) (message : jsvalue) (w : World),
    currentAccount (accountManager w) = None ->
    let run := connectWallet env dApp chainId w in
    result run = Returned (Fulfilled tt) /\
    emitted w (after run) =
      [ConnectionConnect dApp chainId;
       SessionBroadcastToDApp (dapp_origin dApp)
         {| event_name := "accountsChanged"; event_payload := Addresses [None] |}] /\
    result (signMessage env message w) =
      Returned (Rejected (EthRpcError Internal None)) /\
    result (getCurrentAccount env w) =
      Returned (Rejected (JsError "Elytro: No current account")).
Proof.
  intros dApp chainId message w Hnone. cbv zeta.
  unfold connectWallet, signMessage, getCurrentAccount, accountsChanged,
    current_address, async, bind, call, gets, throw, result, after.
  cbn. rewrite Hnone. cbn. repeat split.
  apply emitted_app. cbn. now rewrite <- app_assoc.
Qed.

(** C5.  [signMessage] rejects with an internal RPC error when there is no
    current account with an address; with a current account it rejects with
    an invalid-params RPC error when the message is not a string, and
    otherwise settles as the SDK's [signMessage] of the message and the
    current account's address does. *)
Theorem signMessage_checks_account_then_message :
  forall (message : jsvalue) (w : World),
    let run := signMessage env message w in
    (truthy (current_address w) = false ->
       result run = Returned (Rejected (EthRpcError Internal None)) /\
       after run = w) /\
    (truthy (current_address w) = true -> is_string message = false ->
       result run = Returned (Rejected (EthRpcError InvalidParams None)) /\
       after run = w) /\
    (forall text signer : string,
       current_address w = Some signer -> signer <> "" -> message = JString text ->
       result run = Returned (sdk_signMessage env (elytroSDK w) text signer) /\
       emitted w (after run) = [SdkSignMessage text signer]).
Proof.
  intros message w. cbv zeta.
  unfold signMessage, current_address, async, bind, call, gets, throw, result, after.
  cbn. destruct (currentAccount (accountManager w)) as [a|]; cbn.
  - destruct (String.eqb_spec (address a) "") as [Hempty|Hfull]; cbn.
    + split; [intros _; now split|]. split; [discriminate|].
      intros text signer [= <-] Hsigner. contradiction.
    + split; [discriminate|]. split.
      * intros _ Hmsg. destruct message; cbn in *; try discriminate; now split.
      * intros text signer [= <-] _ ->. cbn.
        destruct (sdk_signMessage env (elytroSDK w) text (address a)); cbn;
          (split; [reflexivity|]); apply emitted_app; reflexivity.
  - split; [intros _; now split|]. split; discriminate.
Qed.

End Properties.

(* ================================================================== *)
(** ** Chain configuration, account creation and account switching *)
(* ================================================================== *)

(** The chain-config-changed routine: it fails fast without a current chain
    and otherwise resets the SDK, initialises the chain client and, when
    [toHex] renders the id of the chain, broadcasts [chainChanged] to all
    sessions, in this order; when [toHex] throws, nothing is broadcast and
    the routine rejects. *)
Lemma onChainConfigChanged_run (w : World) :
  let run := _onChainConfigChanged w in
  match currentChain (chainService w) with
  | None =>
      run = (Returned (Rejected (JsError "Elytro: No current chain config")), w)
  | Some c =>
      result run =
        Returned (if safe_id c then Fulfilled tt
                  else Rejected (JsError "IntegerOutOfRangeError")) /\
      trace (after run) = (trace w ++ chain_config_changed_calls c)%list /\
      elytroSDK (after run) = Some c /\
      walletClient (after run) = Some c /\
      sessionManager (after run) =
        fold_left (fun ss msg => broadcastMessage msg ss)
          (chain_config_changed_messages c) (sessionManager w) /\
      chainService (after run) = chainService w /\
      accountManager (after run) = accountManager w /\
      historyManager (after run) = historyManager w /\
      keyring (after run) = keyring w
  end.
Proof.
  cbv zeta.
  unfold _onChainConfigChanged, async, bind, call, gets, lift, throw, result, after.
  cbn. destruct (currentChain (chainService w)) as [c|]; cbn; [|reflexivity].
  unfold chain_config_changed_calls, chain_config_changed_messages, safe_id,
    Hex.numberToHex.
  destruct (chain_id c <=? Hex.max_safe_integer)%N; cbn.
  - repeat (split; [reflexivity|]).
    split; [|repeat split]. now rewrite <- !app_assoc.
  - repeat (split; [reflexivity|]).
    split; [|repeat split]. now rewrite <- !app_assoc.
Qed.

(** The chain-switch step: a silent no-op on the current chain; otherwise
    the chain service is asked to switch and, when it returns a config, the
    chain-config-changed routine runs.  Its promise is always fulfilled:
    the promise of the routine is dropped. *)
Lemma switchChain_run (env : Collaborators) (chainId : N) (w : World) :
  let run := _switchChain env chainId w in
  result run = Returned (Fulfilled tt) /\
  trace (after run) = (trace w ++ switch_chain_calls env chainId w)%list /\
  chainService (after run) = switch_chain_service env chainId w /\
  sessionManager (after run) =
    fold_left (fun ss msg => broadcastMessage msg ss)
      (switch_chain_messages env chainId w) (sessionManager w) /\
  (switched_to env chainId w = None ->
     elytroSDK (after run) = elytroSDK w /\ walletClient (after run) = walletClient w) /\
  (forall c, switched_to env chainId w = Some c ->
     elytroSDK (after run) = Some c /\ walletClient (after run) = Some c) /\
  accountManager (after run) = accountManager w /\
  historyManager (after run) = historyManager w /\
  keyring (after run) = keyring w.
Proof.
  cbv zeta.
  unfold switch_chain_calls, switch_chain_messages, switch_chain_service, switched_to.
  destruct (_switchChain env chainId w) as [r w1] eqn:E.
  unfold _switchChain, async, bind at 1 2 3, gets, call, ret in E.
  cbv beta iota in E. unfold result, after. cbn [fst snd].
  destruct (is_current_chain chainId w) eqn:Hcur.
  - injection E as <- <-. cbn. rewrite app_nil_r.
    repeat (split; [reflexivity|]). split; [now split|].
    split; [discriminate|now repeat split].
  - destruct (chain_switchChain env chainId (chainService w)) as [svc' cfg] eqn:Hsw.
    cbv beta iota in E. cbn [fst].
    destruct cfg as [cfg|].
    + pose proof (onChainConfigChanged_run
                    (log (ChainSwitch chainId) (with_chainService svc' w))) as Hrun.
      cbv zeta in Hrun. unfold bind in E.
      destruct (_onChainConfigChanged
                  (log (ChainSwitch chainId) (with_chainService svc' w)))
        as [r2 w2] eqn:Hcall.
      cbn [chainService log with_chainService currentChain] in Hrun.
      destruct (currentChain svc') as [c|] eqn:Hc.
      * destruct Hrun as (Hr & Htr & Hsdk & Hcl & Hses & Hch & Ham & Hh & Hk).
        unfold result, after in *. cbn [fst snd] in *. subst r2.
        injection E as <- <-.
        rewrite Htr, Hsdk, Hcl, Hses, Hch, Ham, Hh, Hk. cbn.
        rewrite <- app_assoc.
        repeat (split; [reflexivity|]). split; [discriminate|].
        split; [|now repeat split]. intros c0 [= <-]. now split.
      * injection Hrun as -> ->. injection E as <- <-. cbn.
        repeat (split; [reflexivity|]). split; [now split|].
        split; [discriminate|now repeat split].
    + injection E as <- <-. cbn.
      repeat (split; [reflexivity|]). split; [now split|].
      split; [discriminate|now repeat split].
Qed.

Lemma delivered_fold (msgs : list Message) :
  forall sessions : list Session,
    delivered (fun _ => True) msgs sessions
      (fold_left (fun ss msg => broadcastMessage msg ss) msgs sessions).
Proof.
  induction msgs as [|msg msgs IH]; intros sessions; cbn [fold_left].
  - apply delivered_nothing.
  - change (msg :: msgs) with ([msg] ++ msgs)%list.
    eapply delivered_then; [apply broadcastMessage_delivered|apply IH].
Qed.

Lemma is_current_chain_spec (chainId : N) (w : World) :
  is_current_chain chainId w = true <->
  exists c, currentChain (chainService w) = Some c /\ chainId = chain_id c.
Proof.
  unfold is_current_chain. destruct (currentChain (chainService w)) as [c|].
  - split.
    + intros H. exists c. split; [reflexivity|]. now apply N.eqb_eq.
    + intros (c' & [= <-] & ->). apply N.eqb_refl.
  - split; [discriminate|]. intros (c & H & _). discriminate.
Qed.

Lemma safe_id_spec (c : TChainItem) :
  (safe_id c = true <-> (chain_id c <= Hex.max_safe_integer)%N) /\
  (safe_id c = false <-> (Hex.max_safe_integer < chain_id c)%N).
Proof.
  unfold safe_id. split; [apply N.leb_le|apply N.leb_gt].
Qed.

Section ChainProperties.

Variable env : Collaborators.

(** C3, as the code has it.  [updateChainConfig] first updates the chain
    service and then compares the chain id with the id of the current chain
    as the chain service has it after the update.  The SDK reset and the
    chain client initialisation are made if and only if the two are equal;
    the [chainChanged] broadcast to all sessions (the chain id as a
    hexadecimal string) follows them when the id is at most
    [Number.MAX_SAFE_INTEGER], and is not made for a larger id, which
    [toHex] refuses.  Updating a chain that is not current after the update
    makes none of these calls.  The routine itself fails fast when no
    current chain config resolves. *)
Theorem updateChainConfig_reinitializes_iff_current :
  forall (chainId : N) (config : PartialChain) (w : World),
    let svc' := chain_updateChain env chainId config (chainService w) in
    let run := updateChainConfig env chainId config w in
    let calls := emitted w (after run) in
    let msg := {| event_name := "chainChanged";
                  event_payload := ChainIdHex (Hex.toHex chainId) |} in
    result run = Returned (Fulfilled tt) /\
    chainService (after run) = svc' /\
    (existsb is_reinitialization calls = true <->
     exists c, currentChain svc' = Some c /\ chainId = chain_id c) /\
    (forall c, currentChain svc' = Some c -> chainId = chain_id c ->
       elytroSDK (after run) = Some c /\
       walletClient (after run) = Some c /\
       ((chainId <= Hex.max_safe_integer)%N ->
          calls = [ChainUpdate chainId config; SdkReset c; ClientInit c;
                   SessionBroadcast msg] /\
          delivered (fun _ => True) [msg]
            (sessionManager w) (sessionManager (after run))) /\
       ((Hex.max_safe_integer < chainId)%N ->
          calls = [ChainUpdate chainId config; SdkReset c; ClientInit c] /\
          sessionManager (after run) = sessionManager w)) /\
    ((forall c, currentChain svc' = Some c -> chainId <> chain_id c) ->
       calls = [ChainUpdate chainId config] /\
       elytroSDK (after run) = elytroSDK w /\
       walletClient (after run) = walletClient w /\
       sessionManager (after run) = sessionManager w) /\
    (forall w0 : World,
       currentChain (chainService w0) = None ->
       _onChainConfigChanged w0 =
         (Returned (Rejected (JsError "Elytro: No current chain config")), w0)).
Proof.
  intros chainId config w. cbv zeta.
  set (svc' := chain_updateChain env chainId config (chainService w)).
  set (w1 := log (ChainUpdate chainId config) (with_chainService svc' w)).
  destruct (updateChainConfig env chainId config w) as [r w2] eqn:E.
  unfold updateChainConfig, async, bind at 1 2, call at 1, gets, ret in E.
  cbv beta iota in E. fold svc' in E. fold w1 in E.
  pose proof (is_current_chain_spec chainId w1) as Hspec.
  pose proof (onChainConfigChanged_run w1) as Hrun. cbv zeta in Hrun.
  change (chainService w1) with svc' in Hspec, Hrun.
  unfold result, after. cbn [fst snd].
  assert (Hfail : forall w0 : World,
             currentChain (chainService w0) = None ->
             _onChainConfigChanged w0 =
               (Returned (Rejected (JsError "Elytro: No current chain config")), w0)).
  { intros w0 H0. pose proof (onChainConfigChanged_run w0) as H. cbv zeta in H.
    now rewrite H0 in H. }
  destruct (is_current_chain chainId w1) eqn:Hcur.
  - destruct (proj1 Hspec eq_refl) as (c & Hc & Hid).
    rewrite Hc in Hrun.
    unfold bind in E.
    destruct (_onChainConfigChanged w1) as [r1 w3].
    destruct Hrun as (Hr & Htr & Hsdk & Hcl & Hses & Hch & _).
    unfold result, after in *. cbn [fst snd] in *. subst r1.
    injection E as <- <-.
    assert (Hcalls : emitted w w3 =
                     ChainUpdate chainId config :: chain_config_changed_calls c).
    { apply emitted_app. rewrite Htr. unfold w1. cbn. now rewrite <- app_assoc. }
    rewrite Hcalls, Hch, Hsdk, Hcl, Hses.
    split; [reflexivity|]. split; [reflexivity|].
    split; [split; [intros _; now exists c|reflexivity]|].
    split.
    + intros c' Hc' Hid'. rewrite Hc in Hc'. injection Hc' as <-.
      subst chainId. split; [reflexivity|]. split; [reflexivity|].
      unfold chain_config_changed_calls, chain_config_changed_messages.
      destruct (safe_id_spec c) as [Hsafe Hunsafe].
      destruct (safe_id c); cbn.
      * split.
        -- intros _. split; [reflexivity|]. apply broadcastMessage_delivered.
        -- intros Hbig. apply Hunsafe in Hbig. discriminate.
      * split.
        -- intros Hsmall. apply Hsafe in Hsmall. discriminate.
        -- intros _. now split.
    + split; [|exact Hfail]. intros Hother. now destruct (Hother c Hc).
  - injection E as <- <-.
    assert (Hcalls : emitted w w1 = [ChainUpdate chainId config]).
    { apply emitted_app. reflexivity. }
    rewrite Hcalls. cbn.
    split; [reflexivity|]. split; [reflexivity|].
    split; [split; [discriminate|]|].
    { intros Hex. apply Hspec in Hex. discriminate. }
    split.
    + intros c Hc Hid.
      assert (Habsurd : false = true) by (apply Hspec; now exists c).
      discriminate.
    + split; [|exact Hfail]. intros _. now repeat split.
Qed.

(** C2, as the code has it.  [createAccount] rejects with a descriptive
    error when the keyring owner has no address.  Otherwise the chain-switch
    step has run to its end when [accountManager.createAccountAsCurrent] is
    called.  On the current chain the step does nothing.  On another chain
    it asks the chain service to switch; when the chain service hands back a
    config and has a current chain, the SDK reset and the chain client
    initialisation for that chain (and the [chainChanged] broadcast, when
    [toHex] renders its id) precede the creation, and the account is created
    while that chain is current: with the requested chain current, not the
    old one.  When the chain service hands back null or is left without a
    current chain, none of these calls is made and the account is still
    created.  With the chain service of the specification, the first case is
    that of every configured chain and the null case that of a chain that is
    not configured, where the old chain stays current. *)
Theorem createAccount_switches_chain_first :
  forall (chainId : N) (w : World),
    let run := createAccount env chainId w in
    let calls := emitted w (after run) in
    (owner_address_of w = None ->
       run = (Returned (Rejected
                (JsError "Elytro: No owner address. Try create owner first.")), w)) /\
    (forall a : string,
       owner_address_of w = Some a ->
       result run = Returned (Fulfilled tt) /\
       accountManager (after run) =
         account_createAccountAsCurrent env a chainId (accountManager w) /\
       (is_current_chain chainId w = true ->
          calls = [AccountCreateAsCurrent a chainId] /\
          chainService (after run) = chainService w) /\
       (is_current_chain chainId w = false ->
        forall (svc' : ChainService) (cfg : option TChainItem),
          chain_switchChain env chainId (chainService w) = (svc', cfg) ->
          chainService (after run) = svc' /\
          (forall c : TChainItem,
             cfg <> None -> currentChain svc' = Some c ->
             calls = (ChainSwitch chainId :: SdkReset c :: ClientInit c
                      :: (if safe_id c then [SessionBroadcast (chainChanged c)] else [])
                      ++ [AccountCreateAsCurrent a chainId])%list /\
             elytroSDK (after run) = Some c /\
             walletClient (after run) = Some c /\
             (chain_id c = chainId -> is_current_chain chainId (after run) = true)) /\
          (cfg = None \/ currentChain svc' = None ->
             calls = [ChainSwitch chainId; AccountCreateAsCurrent a chainId] /\
             quiet w (after run))) /\
       (chain_switchChain env = Sample.switchChain ->
        is_current_chain chainId w = false ->
          (forall c : TChainItem,
             find (fun c' => (chain_id c' =? chainId)%N) (chains (chainService w)) = Some c ->
             calls = (ChainSwitch chainId :: SdkReset c :: ClientInit c
                      :: (if safe_id c then [SessionBroadcast (chainChanged c)] else [])
                      ++ [AccountCreateAsCurrent a chainId])%list /\
             currentChain (chainService (after run)) = Some c /\
             is_current_chain chainId (after run) = true) /\
          (find (fun c' => (chain_id c' =? chainId)%N) (chains (chainService w)) = None ->
             calls = [ChainSwitch chainId; AccountCreateAsCurrent a chainId] /\
             chainService (after run) = chainService w))).
Proof.
  intros chainId w. cbv zeta.
  destruct (createAccount env chainId w) as [r w2] eqn:E.
  unfold createAccount, async, bind at 1, gets at 1, throw in E.
  cbv beta iota in E. unfold owner_address_of.
  destruct (owner (keyring w)) as [o|];
    [destruct (owner_address o) as [a|]; [destruct (a =? "") eqn:Ha|]|];
    try (injection E as <- <-; split; [reflexivity|discriminate]).
  split; [discriminate|]. intros a' [= <-].
  unfold bind, call in E.
  pose proof (switchChain_run env chainId w) as Hsw. cbv zeta in Hsw.
  destruct (_switchChain env chainId w) as [r1 w1].
  destruct Hsw as (Hr & Htr & Hch & Hses & Hnone & Hsome & Ham & _).
  unfold result, after in *. cbn [fst snd] in *. subst r1.
  injection E as <- <-.
  assert (Hcalls : emitted w
                     (log (AccountCreateAsCurrent a chainId)
                        (with_accountManager
                           (account_createAccountAsCurrent env a chainId
                              (accountManager w1)) w1)) =
                   (switch_chain_calls env chainId w
                    ++ [AccountCreateAsCurrent a chainId])%list).
  { apply emitted_app. cbn. rewrite Htr. now rewrite <- app_assoc. }
  rewrite Hcalls. unfold quiet. cbn. rewrite Hch, Ham, Hses.
  unfold switch_chain_calls, switch_chain_service, switch_chain_messages,
    switched_to in *.
  split; [reflexivity|]. split; [reflexivity|].
  assert (Hgen : is_current_chain chainId w = false ->
            forall (svc' : ChainService) (cfg : option TChainItem),
              chain_switchChain env chainId (chainService w) = (svc', cfg) ->
              switch_chain_service env chainId w = svc' /\
              (forall c : TChainItem,
                 cfg <> None -> currentChain svc' = Some c ->
                 (switch_chain_calls env chainId w
                  ++ [AccountCreateAsCurrent a chainId])%list =
                 (ChainSwitch chainId :: SdkReset c :: ClientInit c
                  :: (if safe_id c then [SessionBroadcast (chainChanged c)] else [])
                  ++ [AccountCreateAsCurrent a chainId])%list /\
                 elytroSDK w1 = Some c /\ walletClient w1 = Some c) /\
              (cfg = None \/ currentChain svc' = None ->
                 (switch_chain_calls env chainId w
                  ++ [AccountCreateAsCurrent a chainId])%list =
                 [ChainSwitch chainId; AccountCreateAsCurrent a chainId] /\
                 fold_left (fun ss msg => broadcastMessage msg ss)
                   (switch_chain_messages env chainId w) (sessionManager w) =
                 sessionManager w /\
                 elytroSDK w1 = elytroSDK w /\ walletClient w1 = walletClient w)).
  { unfold switch_chain_calls, switch_chain_service, switch_chain_messages,
      switched_to.
    intros Hcur svc' cfg Hswitch. rewrite Hcur, Hswitch in *. cbn [fst].
    split; [reflexivity|]. split.
    - intros c Hcfg Hc. destruct cfg as [cfg|]; [|contradiction].
      rewrite Hc in *. destruct (Hsome c eq_refl) as [Hsdk Hcl].
      split; [|now split].
      unfold chain_config_changed_calls, chain_config_changed_messages.
      destruct (safe_id c); reflexivity.
    - intros Hno.
      assert (Hnot : match cfg with
                     | Some _ => currentChain svc'
                     | None => None
                     end = None).
      { destruct Hno as [-> | Hno]; [reflexivity|]. now destruct cfg. }
      rewrite Hnot in *. destruct (Hnone eq_refl) as [Hsdk Hcl].
      now repeat split. }
  unfold switch_chain_calls, switch_chain_service, switch_chain_messages,
    switched_to in Hgen.
  split; [intros Hcur; rewrite Hcur; now split|].
  split.
  - intros Hcur svc' cfg Hswitch.
    destruct (Hgen Hcur svc' cfg Hswitch) as (Hsvc & Hyes & Hno).
    split; [exact Hsvc|]. split.
    + intros c Hcfg Hc. destruct (Hyes c Hcfg Hc) as (Hc1 & Hc2 & Hc3).
      split; [exact Hc1|]. split; [exact Hc2|]. split; [exact Hc3|].
      intros Hid. unfold is_current_chain. cbn. rewrite Hch, Hsvc, Hc, Hid.
      apply N.eqb_refl.
    + intros Hnull. destruct (Hno Hnull) as (Hn1 & Hn2 & Hn3 & Hn4).
      split; [exact Hn1|]. now repeat split.
  - intros Hspec Hcur. unfold is_current_chain in Hcur.
    split.
    + intros c Hfind.
      assert (Hswitch : chain_switchChain env chainId (chainService w) =
                        ({| chains := chains (chainService w); currentChain := Some c |},
                         Some c)).
      { rewrite Hspec. unfold Sample.switchChain. rewrite Hfind.
        destruct (currentChain (chainService w)) as [cur|]; [|reflexivity].
        rewrite N.eqb_sym, Hcur. reflexivity. }
      assert (Hcur' : is_current_chain chainId w = false) by exact Hcur.
      destruct (Hgen Hcur' _ _ Hswitch) as (Hsvc & Hyes & _).
      destruct (Hyes c ltac:(discriminate) eq_refl) as (Hc1 & _).
      split; [exact Hc1|]. rewrite Hsvc. cbn. split; [reflexivity|].
      unfold is_current_chain. cbn. rewrite Hch, Hsvc. cbn.
      apply find_some in Hfind as [_ Hid]. apply N.eqb_eq in Hid.
      rewrite Hid. apply N.eqb_refl.
    + intros Hfind.
      assert (Hswitch : chain_switchChain env chainId (chainService w) =
                        (chainService w, None)).
      { rewrite Hspec. unfold Sample.switchChain. now rewrite Hfind. }
      assert (Hcur' : is_current_chain chainId w = false) by exact Hcur.
      destruct (Hgen Hcur' _ _ Hswitch) as (Hsvc & _ & Hno).
      destruct (Hno (or_introl eq_refl)) as (Hn1 & _).
      split; [exact Hn1|exact Hsvc].
Qed.

End ChainProperties.

Section AccountProperties.

Variable env : Collaborators.

(** C6.  For every chain id, [switchAccountByChain] switches the chain only
    when the chain id differs from the id of the current chain (otherwise
    the chain-switch step makes no call), then switches the account
    manager's current account to that chain, reloads the history manager
    for the new current account, and finally broadcasts [accountsChanged]
    with the address of the new current account to all sessions. *)
Theorem switchAccountByChain_broadcasts_to_all :
  forall (chainId : N) (w : World),
    let run := switchAccountByChain env chainId w in
    let am' := account_switchAccountByChainId env chainId (accountManager w) in
    let msg := {| event_name := "accountsChanged";
                  event_payload :=
                    Addresses [option_map address (currentAccount am')] |} in
    result run = Returned (Fulfilled tt) /\
    emitted w (after run) =
      (switch_chain_calls env chainId w
       ++ [AccountSwitchByChainId chainId;
           HistorySwitchAccount (currentAccount am');
           SessionBroadcast msg])%list /\
    (is_current_chain chainId w = true ->
       switch_chain_calls env chainId w = [] /\
       chainService (after run) = chainService w) /\
    (is_current_chain chainId w = false ->
       (exists rest, switch_chain_calls env chainId w = ChainSwitch chainId :: rest) /\
       chainService (after run) = fst (chain_switchChain env chainId (chainService w))) /\
    (forall c : TChainItem,
       switched_to env chainId w = Some c ->
       switch_chain_calls env chainId w =
         ChainSwitch chainId :: SdkReset c :: ClientInit c
           :: (if safe_id c then [SessionBroadcast (chainChanged c)] else []) /\
       switch_chain_messages env chainId w =
         (if safe_id c then [chainChanged c] else [])) /\
    (is_current_chain chainId w = false -> switched_to env chainId w = None ->
       switch_chain_calls env chainId w = [ChainSwitch chainId] /\
       switch_chain_messages env chainId w = []) /\
    accountManager (after run) = am' /\
    historyManager (after run) =
      history_switchAccount env (currentAccount am') (historyManager w) /\
    delivered (fun _ => True) (switch_chain_messages env chainId w ++ [msg])
      (sessionManager w) (sessionManager (after run)).
Proof.
  intros chainId w. cbv zeta.
  destruct (switchAccountByChain env chainId w) as [r w2] eqn:E.
  unfold switchAccountByChain, async, bind, call, gets, accountsChanged,
    current_address in E.
  pose proof (switchChain_run env chainId w) as Hsw. cbv zeta in Hsw.
  destruct (_switchChain env chainId w) as [r1 w1].
  destruct Hsw as (Hr & Htr & Hch & Hses & _ & _ & Ham & Hh & _).
  unfold result, after in *. cbn [fst snd] in *. subst r1.
  cbn in E. injection E as <- <-. cbn.
  rewrite Ham, Hh, Hch, Hses.
  split; [reflexivity|]. split.
  { apply emitted_app. cbn. rewrite Htr. now rewrite <- !app_assoc. }
  split; [unfold switch_chain_calls, switch_chain_service; intros ->; now split|].
  split; [unfold switch_chain_calls, switch_chain_service; intros ->;
          split; [now eexists|reflexivity]|].
  split.
  { intros c Hc. unfold switch_chain_calls, switch_chain_messages. rewrite Hc.
    unfold switched_to in Hc.
    destruct (is_current_chain chainId w); [discriminate|].
    unfold chain_config_changed_calls, chain_config_changed_messages.
    destruct (safe_id c); now split. }
  split.
  { intros Hcur Hnone. unfold switch_chain_calls, switch_chain_messages.
    rewrite Hcur, Hnone. now split. }
  split; [reflexivity|]. split; [reflexivity|].
  eapply delivered_then; [apply delivered_fold|apply broadcastMessage_delivered].
Qed.

End AccountProperties.

(* ================================================================== *)
(** ** Signing typed data *)
(* ================================================================== *)

Section SigningProperties.

Variable env : Collaborators.

Lemma compute_hash_run (typedData : string + list TTypedDataItem) (w : World) :
  compute_hash env typedData w = (typed_data_hash env typedData, w).
Proof.
  unfold compute_hash, typed_data_hash, bind, lift.
  destruct typedData as [text|items]; [|reflexivity].
  destruct (JSON_parse env text); reflexivity.
Qed.

(** The call of an [async] method does not throw. *)
Lemma signMessage_returns (message : jsvalue) (w : World) :
  exists p, result (signMessage env message w) = Returned p.
Proof.
  unfold signMessage, async, result.
  match goal with |- context [let (_, _) := ?body in _] => destruct body end.
  now eexists.
Qed.

(** C4.  [signTypedData] hashes a JSON-serialized string with the
    string-input strategy and a structured list with the other strategy, and
    in both cases signs the hash with [signMessage]; a parse error, a
    hashing failure, an absent hash and an error of [signMessage] each
    surface as one internal RPC error whose message is the message of the
    original error. *)
Theorem signTypedData_signs_hash_or_normalizes :
  forall (typedData : string + list TTypedDataItem) (w : World),
    let run := signTypedData env typedData w in
    (forall text, typedData = inl text ->
       typed_data_hash env typedData =
         match JSON_parse env text with
         | Returned parsed => hashSignTypedData env parsed
         | Thrown e => Thrown e
         end) /\
    (forall items, typedData = inr items ->
       typed_data_hash env typedData = hashEarlyTypedData env items) /\
    (forall e, typed_data_hash env typedData = Thrown e ->
       run = (Returned (Rejected (EthRpcError Internal (exn_message env e))), w)) /\
    (forall hash, typed_data_hash env typedData = Returned hash ->
       truthy hash = false ->
       run = (Returned (Rejected (EthRpcError Internal
                (Some "Elytro: Cannot generate hash for typed data"))), w)) /\
    (forall h, typed_data_hash env typedData = Returned (Some h) -> h <> "" ->
       let signing := signMessage env (JString h) w in
       after run = after signing /\
       (forall signature, result signing = Returned (Fulfilled signature) ->
          result run = Returned (Fulfilled signature)) /\
       (forall e, result signing = Returned (Rejected e) ->
          result run =
            Returned (Rejected (EthRpcError Internal (exn_message env e))))) /\
    (forall e, result run = Returned (Rejected e) ->
       exists original, e = normalized env original) /\
    (exists p, result run = Returned p).
Proof.
  intros typedData w. cbv zeta.
  split; [intros text ->; reflexivity|].
  split; [intros items ->; reflexivity|].
  destruct (signTypedData env typedData w) as [r w2] eqn:E.
  unfold signTypedData, async, try_catch, bind at 1 in E.
  rewrite compute_hash_run in E. unfold result, after. cbn [fst snd].
  destruct (typed_data_hash env typedData) as [hash|e0] eqn:Hhash.
  - destruct hash as [h|].
    + destruct (String.eqb_spec h "") as [Hempty|Hfull].
      * cbn in E. injection E as <- <-.
        split; [discriminate|].
        split; [intros hash [= <-] _; reflexivity|].
        split; [intros h' [= <-] Hh; contradiction|].
        split; [|now eexists].
        intros e [= <-]. now eexists (JsError _).
      * unfold bind, await in E.
        destruct (signMessage_returns (JString h) w) as [p Hp].
        destruct (signMessage env (JString h) w) as [r1 w1] eqn:Hsign.
        unfold result in Hp. cbn [fst] in Hp. subst r1.
        split; [discriminate|].
        split.
        { intros hash [= <-] Hfalsy. cbn in Hfalsy.
          apply negb_false_iff, String.eqb_eq in Hfalsy. contradiction. }
        destruct p as [signature|e1]; cbn in E; injection E as <- <-.
        -- split.
           { intros h' [= <-] _. rewrite Hsign. cbn [fst snd].
             split; [reflexivity|].
             split; [intros s [= <-]; reflexivity|discriminate]. }
           split; [discriminate|now eexists].
        -- split.
           { intros h' [= <-] _. rewrite Hsign. cbn [fst snd].
             split; [reflexivity|].
             split; [discriminate|intros e [= <-]; reflexivity]. }
           split; [|now eexists].
           intros e [= <-]. now exists e1.
    + cbn in E. injection E as <- <-.
      split; [discriminate|].
      split; [intros hash [= <-] _; reflexivity|].
      split; [discriminate|].
      split; [|now eexists].
      intros e [= <-]. now eexists (JsError _).
  - cbn in E. injection E as <- <-.
    split; [intros e [= <-]; reflexivity|].
    split; [discriminate|]. split; [discriminate|].
    split; [|now eexists].
    intros e [= <-]. now exists e0.
Qed.

End SigningProperties.

(* ================================================================== *)
(** ** Approvals and the declarations of the class *)
(* ================================================================== *)

Lemma stale_spec (id : string) (w : World) :
  stale id w = true <->
  forall a : Approval,
    currentApproval (approvalService w) = Some a -> approval_id a <> id.
Proof.
  unfold stale, pending.
  destruct (currentApproval (approvalService w)) as [a|].
  - rewrite negb_true_iff, String.eqb_neq. split.
    + intros Hneq a' [= <-]. exact Hneq.
    + intros H. now apply H.
  - split; [discriminate|reflexivity].
Qed.

(** C8.  For every id that is not the id of the pending approval (also when
    no approval is pending), [resolveApproval] and [rejectApproval] leave
    the approval service as it was, so the current approval stays, and their
    promises are fulfilled: no error is raised. *)
Theorem stale_approval_is_ignored :
  forall (id : string) (response : jsvalue) (w : World),
    stale id w = true ->
    let resolved := resolveApproval id response w in
    let rejected := rejectApproval id w in
    result resolved = Returned (Fulfilled tt) /\
    result rejected = Returned (Fulfilled tt) /\
    approvalService (after resolved) = approvalService w /\
    approvalService (after rejected) = approvalService w /\
    result (getCurrentApproval (after resolved)) =
      Returned (Fulfilled (currentApproval (approvalService w))) /\
    result (getCurrentApproval (after rejected)) =
      Returned (Fulfilled (currentApproval (approvalService w))) /\
    after resolved = log (ApprovalResolve id response) w /\
    after rejected = log (ApprovalReject id) w.
Proof.
  intros id response w Hstale. cbv zeta.
  unfold stale in Hstale. apply negb_true_iff in Hstale.
  unfold resolveApproval, rejectApproval, getCurrentApproval, async, call, gets,
    result, after, approval_resolveApproval, approval_rejectApproval.
  cbn. rewrite Hstale. cbn.
  destruct w as [k [cur done] c s ch am h sdk cl tr]. cbn. now repeat split.
Qed.

(** C9, as the code has it.  One public method is declared without
    [async]: [getLatestHistories].  It hands its caller the list itself,
    not a promise; every other public method is declared [async]. *)
Theorem getLatestHistories_is_not_async :
  synchronous_public_methods = ["getLatestHistories"] /\
  In (public_plain "getLatestHistories") WalletController_methods /\
  forallb (fun m => implb (is_public m) (declared_async m)) WalletController_methods
    = false /\
  (forall (env : Collaborators) (w : World),
     exists items : list (list (string * string)),
       result (getLatestHistories env w) = Returned items).
Proof.
  split; [reflexivity|]. split; [cbn; tauto|]. split; [reflexivity|].
  intros env w.
  unfold getLatestHistories, bind, gets, call, ret, result.
  destruct (isInitialized (historyManager w)); cbn; now eexists.
Qed.

(* ================================================================== *)
(** ** The BigInt boundary of the controller *)
(* ================================================================== *)


(* ================================================================== *)
(** ** Runs on the sample wallet *)
(* ================================================================== *)

(** C2 as the specification states it fails on a chain id the chain service
    does not switch to: the owner has an address and chain 999 is not the
    current chain, yet the account is created while Sepolia, the old chain,
    is still current, and no chain-config-changed call was made.  It also
    fails on the configured chain whose id [toHex] refuses: the account is
    created after the SDK reset and the chain client initialisation, and no
    [chainChanged] is ever broadcast. *)
Lemma createAccount_on_unconfigured_chain :
  let run := createAccount Sample.collaborators 999 Sample.world in
  let far := createAccount Sample.collaborators 9007199254740992
               Sample2.far_configured_world in
  (owner_address_of Sample.world = Some "0x0wner" /\
   is_current_chain 999 Sample.world = false /\
   result run = Returned (Fulfilled tt) /\
   emitted Sample.world (after run) =
     [ChainSwitch 999; AccountCreateAsCurrent "0x0wner" 999] /\
   currentChain (chainService (after run)) = Some Sample.sepolia /\
   is_current_chain 999 (after run) = false /\
   option_map account_chainId (currentAccount (accountManager (after run))) = Some 999%N) /\
  (is_current_chain 9007199254740992 Sample2.far_configured_world = false /\
   result far = Returned (Fulfilled tt) /\
   emitted Sample2.far_configured_world (after far) =
     [ChainSwitch 9007199254740992; SdkReset Sample2.far_chain;
      ClientInit Sample2.far_chain;
      AccountCreateAsCurrent "0x0wner" 9007199254740992] /\
   sessionManager (after far) = sessionManager Sample2.far_configured_world).
Proof. cbv zeta. vm_compute. repeat split. Qed.

(** C3 as the specification states it fails twice.  An update of the
    current chain that gives it another id makes no reset, no
    initialisation and no broadcast, since the comparison follows the
    update; and an update of the current chain whose id [toHex] refuses
    resets the SDK and initialises the chain client but broadcasts
    nothing. *)
Lemma updateChainConfig_misses_current_chain :
  let renumber := {| upd_id := Some 5%N; upd_rpcUrl := None; upd_displayName := None |} in
  let rename := {| upd_id := None; upd_rpcUrl := None; upd_displayName := Some "Far away" |} in
  let far' := {| chain_id := 9007199254740992; rpcUrl := "https://rpc.far.example";
                 displayName := "Far away" |} in
  let far := updateChainConfig Sample.collaborators 9007199254740992 rename
               Sample2.far_world in
  (is_current_chain 11155111 Sample.world = true /\
   emitted Sample.world
     (after (updateChainConfig Sample.collaborators 11155111 renumber Sample.world)) =
     [ChainUpdate 11155111 renumber]) /\
  (is_current_chain 9007199254740992 Sample2.far_world = true /\
   is_current_chain 9007199254740992 (after far) = true /\
   emitted Sample2.far_world (after far) =
     [ChainUpdate 9007199254740992 rename; SdkReset far'; ClientInit far'] /\
   sessionManager (after far) = sessionManager Sample2.far_world).
Proof. cbv zeta. vm_compute. repeat split. Qed.


Lemma connectWallet_without_current_account_witness :
  currentAccount (accountManager Sample.fresh_world) = None /\
  result (connectWallet Sample.collaborators Sample.dapp 10 Sample.fresh_world) =
    Returned (Fulfilled tt).
Proof.
  split; [reflexivity|].
  exact (proj1 (connectWallet_without_current_account Sample.collaborators
                  Sample.dapp 10 JNull Sample.fresh_world eq_refl)).
Defined.

Lemma stale_approval_is_ignored_witness :
  stale "approval-0" Sample.world = true /\
  approvalService (after (resolveApproval "approval-0" JNull Sample.world)) =
    approvalService Sample.world.
Proof.
  split; [reflexivity|].
  exact (proj1 (proj2 (proj2 (stale_approval_is_ignored "approval-0" JNull
                                Sample.world eq_refl)))).
Defined.

(** The pending approval itself is resolved. *)
Example resolve_pending_approval :
  currentApproval
    (approvalService (after (resolveApproval "approval-1" (JBool true) Sample.world)))
  = None.
Proof. reflexivity. Qed.

(** Switching the sample wallet to a configured chain. *)
Example createAccount_on_optimism :
  emitted Sample.world (after (createAccount Sample.collaborators 10 Sample.world)) =
    [ChainSwitch 10; SdkReset Sample.optimism; ClientInit Sample.optimism;
     SessionBroadcast {| event_name := "chainChanged"; event_payload := ChainIdHex "0xa" |};
     AccountCreateAsCurrent "0x0wner" 10].
Proof. vm_compute. reflexivity. Qed.

Example sign_typed_data_text :
  result (signTypedData Sample.collaborators (inl "{x}") Sample.world) =
    Returned (Fulfilled "signed:0x{x}:0xA11ce").
Proof. vm_compute. reflexivity. Qed.

Example sign_typed_data_parse_error :
  result (signTypedData Sample.collaborators (inl "x") Sample.world) =
    Returned (Rejected (EthRpcError Internal (Some "Unexpected token in JSON"))).
Proof. vm_compute. reflexivity. Qed.

Example sign_typed_data_without_account :
  result (signTypedData Sample.collaborators (inl "{x}") Sample.fresh_world) =
    Returned (Rejected (EthRpcError Internal (Some "Internal JSON-RPC error."))).
Proof. vm_compute. reflexivity. Qed.

Example chain_id_in_hex : Hex.toHex 11155111 = "0xaa36a7".
Proof. vm_compute. reflexivity. Qed.

Example update_current_chain :
  let config := {| upd_id := None; upd_rpcUrl := Some "https://rpc2.sepolia.example";
                   upd_displayName := None |} in
  let sepolia' := {| chain_id := 11155111; rpcUrl := "https://rpc2.sepolia.example";
                     displayName := "Sepolia" |} in
  emitted Sample.world
    (after (updateChainConfig Sample.collaborators 11155111 config Sample.world)) =
    [ChainUpdate 11155111 config; SdkReset sepolia'; ClientInit sepolia';
     SessionBroadcast {| event_name := "chainChanged";
                         event_payload := ChainIdHex "0xaa36a7" |}].
Proof. vm_compute. reflexivity. Qed.

Example update_other_chain :
  let config := {| upd_id := None; upd_rpcUrl := Some "https://rpc2.optimism.example";
                   upd_displayName := None |} in
  emitted Sample.world
    (after (updateChainConfig Sample.collaborators 10 config Sample.world)) =
    [ChainUpdate 10 config].
Proof. vm_compute. reflexivity. Qed.

Example switch_account_to_optimism :
  let run := switchAccountByChain Sample.collaborators 10 Sample.world in
  let accountsMsg := {| event_name := "accountsChanged";
                        event_payload := Addresses [Some "0xA11ce10"] |} in
  let chainMsg := {| event_name := "chainChanged"; event_payload := ChainIdHex "0xa" |} in
  emitted Sample.world (after run) =
    [ChainSwitch 10; SdkReset Sample.optimism; ClientInit Sample.optimism;
     SessionBroadcast chainMsg; AccountSwitchByChainId 10;
     HistorySwitchAccount (Some Sample.alice_on_optimism);
     SessionBroadcast accountsMsg] /\
  map inbox (sessionManager (after run)) =
    [[chainMsg; accountsMsg]; [chainMsg; accountsMsg]].
Proof. vm_compute. split; reflexivity. Qed.

Example connect_reaches_one_session :
  map inbox
    (sessionManager
       (after (connectWallet Sample.collaborators Sample.dapp 10 Sample.world))) =
    [[{| event_name := "accountsChanged";
         event_payload := Addresses [Some "0xA11ce"] |}]; []].
Proof. vm_compute. reflexivity. Qed.

Example sign_message_not_a_string :
  result (signMessage Sample.collaborators (JNumber 1) Sample.world) =
    Returned (Rejected (EthRpcError InvalidParams None)).
Proof. vm_compute. reflexivity. Qed.

(** Without a current account the first test decides, whatever the
    message. *)
Example sign_message_without_account :
  result (signMessage Sample.collaborators (JNumber 1) Sample.fresh_world) =
    Returned (Rejected (EthRpcError Internal None)).
Proof. vm_compute. reflexivity. Qed.

Example create_account_without_owner :
  createAccount Sample.collaborators 10 Sample.ownerless_world =
    (Returned (Rejected (JsError "Elytro: No owner address. Try create owner first.")),
     Sample.ownerless_world).
Proof. vm_compute. reflexivity. Qed.

(* ================================================================== *)
(** * Further properties of the controller *)
(* ================================================================== *)

Section AccountReading.

Variable env : Collaborators.

(** [getCurrentAccount] on an account already marked deployed: the SDK is
    not asked about the deployment and the account is not activated again;
    the only call is the balance lookup, whose failure is passed on as it
    is. *)
Theorem getCurrentAccount_deployed_fast_path :
  forall (w : World) (info : Account),
    currentAccount (accountManager w) = Some info ->
    isDeployed info = true ->
    let run := getCurrentAccount env w in
    emitted w (after run) = [ClientGetBalance (address info)] /\
    accountManager (after run) = accountManager w /\
    (forall balance,
       client_getBalance env (walletClient w) (address info) = Fulfilled balance ->
       result run = Returned (Fulfilled (info, formatEther env balance))) /\
    (forall e,
       client_getBalance env (walletClient w) (address info) = Rejected e ->
       result run = Returned (Rejected e)).
Proof.
  intros w info Hcur Hdep. cbv zeta.
  unfold getCurrentAccount, async, bind, call, gets, ret, await, throw, result, after.
  cbn. rewrite Hcur. cbn. rewrite Hdep. cbn.
  destruct (client_getBalance env (walletClient w) (address info)) as [b|e] eqn:Hb; cbn.
  - split; [apply emitted_app; reflexivity|]. split; [reflexivity|].
    split; [intros b' [= <-]; reflexivity|discriminate].
  - split; [apply emitted_app; reflexivity|]. split; [reflexivity|].
    split; [discriminate|intros e' [= <-]; reflexivity].
Qed.

(** [getCurrentAccount] on an account not yet marked deployed asks the SDK
    first.  If the SDK call fails, the failure is passed on as it is and
    neither the activation nor the balance lookup happens; the account is
    activated exactly when the SDK reports it deployed, before the balance
    lookup. *)
Theorem getCurrentAccount_checks_deployment :
  forall (w : World) (info : Account),
    currentAccount (accountManager w) = Some info ->
    isDeployed info = false ->
    let run := getCurrentAccount env w in
    let asked := sdk_isSmartAccountDeployed env (elytroSDK w) (address info) in
    (forall e, asked = Rejected e ->
       result run = Returned (Rejected e) /\
       emitted w (after run) = [SdkIsDeployed (address info)] /\
       accountManager (after run) = accountManager w) /\
    (asked = Fulfilled false ->
       emitted w (after run) =
         [SdkIsDeployed (address info); ClientGetBalance (address info)] /\
       accountManager (after run) = accountManager w) /\
    (asked = Fulfilled true ->
       emitted w (after run) =
         [SdkIsDeployed (address info); AccountActivateCurrent;
          ClientGetBalance (address info)] /\
       accountManager (after run) =
         account_activateCurrentAccount env (accountManager w)).
Proof.
  intros w info Hcur Hdep. cbv zeta.
  unfold getCurrentAccount, async, bind, call, gets, ret, await, throw, result, after.
  cbn. rewrite Hcur. cbn. rewrite Hdep. cbn.
  destruct (sdk_isSmartAccountDeployed env (elytroSDK w) (address info))
    as [[|]|e]; cbn.
  - split; [discriminate|]. split; [discriminate|]. intros _.
    destruct (client_getBalance env (walletClient w) (address info)); cbn;
      (split; [apply emitted_app; cbn; now rewrite <- !app_assoc|reflexivity]).
  - split; [discriminate|]. split; [|discriminate]. intros _.
    destruct (client_getBalance env (walletClient w) (address info)); cbn;
      (split; [apply emitted_app; cbn; now rewrite <- !app_assoc|reflexivity]).
  - split; [|split; discriminate]. intros e' [= <-].
    split; [reflexivity|]. split; [apply emitted_app; reflexivity|reflexivity].
Qed.

(** [getLatestHistories] loads the history lazily: an initialized history
    manager is read without any call; otherwise the history manager is
    switched to the current account, once, before the list is read. *)
Theorem getLatestHistories_loads_lazily :
  forall w : World,
    let run := getLatestHistories env w in
    (isInitialized (historyManager w) = true -> after run = w) /\
    (isInitialized (historyManager w) = false ->
       emitted w (after run) =
         [HistorySwitchAccount (currentAccount (accountManager w))] /\
       historyManager (after run) =
         history_switchAccount env (currentAccount (accountManager w))
           (historyManager w)) /\
    accountManager (after run) = accountManager w /\
    quiet w (after run).
Proof.
  intros w. cbv zeta.
  unfold getLatestHistories, bind, call, gets, ret, after, quiet.
  cbn. destruct (isInitialized (historyManager w)); cbn.
  - split; [reflexivity|]. split; [discriminate|]. now repeat split.
  - split; [discriminate|]. split; [|now repeat split].
    intros _. split; [apply emitted_app; reflexivity|reflexivity].
Qed.

End AccountReading.

Lemma get_set_field (key value : string) (obj : list (string * string)) :
  get_field key (set_field key value obj) = Some value.
Proof.
  induction obj as [|[k v] obj IH]; cbn.
  - now rewrite String.eqb_refl.
  - destruct (String.eqb_spec k key) as [->|Hneq]; cbn.
    + now rewrite String.eqb_refl.
    + destruct (String.eqb_spec k key); [contradiction|exact IH].
Qed.

Lemma get_set_field_other (key other value : string) (obj : list (string * string)) :
  other <> key ->
  get_field other (set_field key value obj) = get_field other obj.
Proof.
  intros Hother. induction obj as [|[k v] obj IH]; cbn.
  - destruct (String.eqb_spec key other); [congruence|reflexivity].
  - destruct (String.eqb_spec k key) as [->|Hneq]; cbn.
    + destruct (String.eqb_spec key other); [congruence|reflexivity].
    + destruct (String.eqb_spec k other); [reflexivity|exact IH].
Qed.

(** Each entry [getLatestHistories] returns is the stored operation with
    its [status] field set to the status of the history item: the status of
    the item wins over a [status] field of the operation, and every other
    field reads as in the operation.  There is one entry per history item,
    in the same order. *)
Theorem getLatestHistories_projects_status :
  forall (env : Collaborators) (w : World),
    let run := getLatestHistories env w in
    let items := histories (historyManager (after run)) in
    exists views : list (list (string * string)),
      result run = Returned views /\
      List.length views = List.length items /\
      forall (i : nat) (item : HistoryItem),
        nth_error items i = Some item ->
        exists view,
          nth_error views i = Some view /\
          get_field "status" view = Some (status item) /\
          forall key, key <> "status" ->
            get_field key view = get_field key (data item).
Proof.
  intros env w. cbv zeta.
  assert (Hmap : forall items : list HistoryItem,
             forall (i : nat) (item : HistoryItem),
               nth_error items i = Some item ->
               exists view,
                 nth_error
                   (map (fun it => set_field "status" (status it) (data it)) items) i
                 = Some view /\
                 get_field "status" view = Some (status item) /\
                 forall key, key <> "status" ->
                   get_field key view = get_field key (data item)).
  { intros items i item Hnth. eexists. split.
    - rewrite nth_error_map, Hnth. reflexivity.
    - split; [apply get_set_field|].
      intros key Hkey. now apply get_set_field_other. }
  unfold getLatestHistories, bind, call, gets, ret, result, after.
  cbn. destruct (isInitialized (historyManager w)); cbn;
    (eexists; split; [reflexivity|]; split; [apply length_map|apply Hmap]).
Qed.

(* ================================================================== *)
(** ** Building user operations, ENS lookups, management *)
(* ================================================================== *)

Section Building.

Variable env : Collaborators.
Variable svc : Services.

(** [createDeployUserOp] has the owner precondition of [createAccount]:
    without an owner address both reject with the same error and change
    nothing.  With an owner address the SDK builds the deploy operation for
    that address; its answer comes back serialized and its failure is
    passed on as it is. *)
Theorem createDeployUserOp_needs_owner :
  forall (chainId : N) (w : World),
    let run := createDeployUserOp svc w in
    (owner_address_of w = None ->
       run = (Returned (Rejected no_owner_error), w) /\
       createAccount env chainId w = (Returned (Rejected no_owner_error), w)) /\
    (forall a : string,
       owner_address_of w = Some a ->
       after run = w /\
       (forall op,
          sdk_createUnsignedDeployWalletUserOp svc (elytroSDK w) a = Fulfilled op ->
          result run = Returned (Fulfilled (Format.formatObjectWithBigInt op))) /\
       (forall e,
          sdk_createUnsignedDeployWalletUserOp svc (elytroSDK w) a = Rejected e ->
          result run = Returned (Rejected e))).
Proof.
  intros chainId w. cbv zeta.
  destruct (createDeployUserOp svc w) as [r w1] eqn:E.
  destruct (createAccount env chainId w) as [r2 w2] eqn:E2.
  unfold createDeployUserOp, async, bind at 1, gets at 1, throw in E.
  unfold createAccount, async, bind at 1, gets at 1, throw in E2.
  cbv beta iota in E, E2.
  unfold owner_address_of, no_owner_error, result, after. cbn [fst snd].
  destruct (owner (keyring w)) as [o|];
    [destruct (owner_address o) as [a|]; [destruct (a =? "") eqn:Ha|]|];
    try (injection E as <- <-; injection E2 as <- <-;
         split; [intros _; split; reflexivity|discriminate]).
  clear E2. split; [discriminate|]. intros a' [= <-].
  unfold bind, gets, await, ret, throw in E.
  destruct (sdk_createUnsignedDeployWalletUserOp svc (elytroSDK w) a);
    cbn in E; injection E as <- <-.
  - split; [reflexivity|]. split; [intros op [= <-]; reflexivity|discriminate].
  - split; [reflexivity|]. split; [discriminate|intros e' [= <-]; reflexivity].
Qed.

(** [createTxUserOp] has no account precondition: it changes nothing and
    settles as the SDK does for the current account's address, serializing
    the answer.  Without a current account the SDK is still called, with an
    undefined sender, where [signMessage] rejects with an internal error. *)
Theorem createTxUserOp_asks_sdk_without_check :
  forall (txs : list Transaction) (message : jsvalue) (w : World),
    let run := createTxUserOp svc txs w in
    let built := sdk_createUserOpFromTxs svc (elytroSDK w) (current_address w) txs in
    after run = w /\
    (forall op, built = Fulfilled op ->
       result run = Returned (Fulfilled (Format.formatObjectWithBigInt op))) /\
    (forall e, result run = Returned (Rejected e) <-> built = Rejected e) /\
    (currentAccount (accountManager w) = None ->
       built = sdk_createUserOpFromTxs svc (elytroSDK w) None txs /\
       result (signMessage env message w) =
         Returned (Rejected (EthRpcError Internal None))).
Proof.
  intros txs message w. cbv zeta.
  unfold createTxUserOp, current_address, async, bind, gets, await, ret, throw,
    result, after.
  cbn.
  destruct (sdk_createUserOpFromTxs svc (elytroSDK w)
              (option_map address (currentAccount (accountManager w))) txs)
    as [op|e] eqn:Hbuilt; cbn.
  - split; [reflexivity|]. split; [intros op' [= <-]; reflexivity|].
    split; [intros e; split; discriminate|].
    intros Hnone. rewrite Hnone in *. cbn in *. split; [now rewrite Hbuilt|].
    unfold signMessage, async, bind, gets, throw. cbn. now rewrite Hnone.
  - split; [reflexivity|]. split; [discriminate|].
    split; [intros e'; split; intros [= <-]; reflexivity|].
    intros Hnone. rewrite Hnone in *. cbn in *. split; [now rewrite Hbuilt|].
    unfold signMessage, async, bind, gets, throw. cbn. now rewrite Hnone.
Qed.

(** [packUserOp] reads its amount with [BigInt].  Given the hexadecimal
    rendering of [n], the SDK is asked for the recharge amount with [n]
    itself, and both parts of its answer come back serialized; given a text
    [BigInt] rejects, [packUserOp] rejects with that error, whatever the SDK
    would answer. *)
Theorem packUserOp_reads_amount :
  forall (userOp : Format.object) (n : N) (w : World),
    (forall s m, Hex.fromHex s = Some m -> js_BigInt svc s = Returned m) ->
    let run := packUserOp svc userOp (Hex.toHex n) w in
    let answer := sdk_getRechargeAmountForUserOp svc (elytroSDK w) userOp n in
    after run = w /\
    (forall userOpRes calcResult,
       answer = Fulfilled (userOpRes, calcResult) ->
       result run =
         Returned (Fulfilled
           {| packed_userOp := Format.formatObjectWithBigInt userOpRes;
              packed_calcResult := Format.formatObjectWithBigInt calcResult |})) /\
    (forall e, answer = Rejected e -> result run = Returned (Rejected e)) /\
    (forall amount e,
       js_BigInt svc amount = Thrown e ->
       packUserOp svc userOp amount w = (Returned (Rejected e), w)).
Proof.
  intros userOp n w Hbig. cbv zeta.
  unfold packUserOp, async, bind, lift, gets, await, ret, throw, result, after.
  rewrite (Hbig _ _ (fromHex_toHex n)). cbn.
  destruct (sdk_getRechargeAmountForUserOp svc (elytroSDK w) userOp n)
    as [[op calc]|e]; cbn.
  - split; [reflexivity|].
    split; [intros op' calc' [= <- <-]; reflexivity|].
    split; [discriminate|]. intros amount e' ->. reflexivity.
  - split; [reflexivity|]. split; [discriminate|].
    split; [intros e' [= <-]; reflexivity|]. intros amount e' ->. reflexivity.
Qed.

(** [getENSInfoByName] looks the address up first and the avatar second.
    A failure of the address lookup is the failure of the call, whatever
    the avatar lookup would do; a failure of the avatar lookup loses the
    address found; when both succeed the result is the name as given with
    the two answers.  Nothing is changed. *)
Theorem getENSInfoByName_looks_up_in_order :
  forall (name : string) (w : World),
    let run := getENSInfoByName svc name w in
    let found := client_getENSAddressByName svc (walletClient w) name in
    let avatar := client_getENSAvatarByName svc (walletClient w) name in
    after run = w /\
    (forall e, found = Rejected e -> result run = Returned (Rejected e)) /\
    (forall a e, found = Fulfilled a -> avatar = Rejected e ->
       result run = Returned (Rejected e)) /\
    (forall a v, found = Fulfilled a -> avatar = Fulfilled v ->
       result run =
         Returned (Fulfilled {| ens_name := name; ens_address := a; ens_avatar := v |})).
Proof.
  intros name w. cbv zeta.
  unfold getENSInfoByName, async, bind, gets, await, ret, throw, result, after.
  cbn.
  destruct (client_getENSAddressByName svc (walletClient w) name) as [a|e]; cbn.
  - destruct (client_getENSAvatarByName svc (walletClient w) name) as [v|e]; cbn.
    + split; [reflexivity|]. split; [discriminate|]. split; [discriminate|].
      intros a' v' [= <-] [= <-]. reflexivity.
    + split; [reflexivity|]. split; [discriminate|].
      split; [|discriminate]. intros a' e' [= <-] [= <-]. reflexivity.
  - split; [reflexivity|]. split; [intros e' [= <-]; reflexivity|].
    split; discriminate.
Qed.

(** Only [connectWallet], [updateChainConfig], [createAccount] and
    [switchAccountByChain] message the sessions or re-point the SDK and the
    chain client.  Every other method leaves the sessions, the SDK context
    and the chain client as they were: in particular no session is told
    when [removeAccount] removes the current account or [deleteChain]
    deletes the current chain, and the SDK stays on that chain. *)
Theorem other_methods_are_quiet :
  forall (w : World),
    (forall account, quiet w (after (removeAccount svc account w))) /\
    (forall chainId, quiet w (after (deleteChain svc chainId w))) /\
    (forall chain, quiet w (after (addChain svc chain w))) /\
    (forall entry, quiet w (after (addNewHistory svc entry w))) /\
    (forall password, quiet w (after (createNewOwner svc password w))) /\
    (forall password, quiet w (after (unlock svc password w))) /\
    quiet w (after (lock svc w)) /\
    quiet w (after (getLockStatus svc w)) /\
    quiet w (after (getCurrentAccount env w)) /\
    (forall message, quiet w (after (signMessage env message w))) /\
    (forall typedData, quiet w (after (signTypedData env typedData w))) /\
    (forall userOp, quiet w (after (signUserOperation env userOp w))) /\
    (forall userOp, quiet w (after (sendUserOperation env userOp w))) /\
    (forall userOp, quiet w (after (estimateGas env userOp w))) /\
    (forall userOp, quiet w (after (decodeUserOp env userOp w))) /\
    (forall id response, quiet w (after (resolveApproval id response w))) /\
    (forall id, quiet w (after (rejectApproval id w))).
Proof.
  intros w.
  assert (Hsign : forall message,
             sessionManager (snd (signMessage env message w)) = sessionManager w /\
             elytroSDK (snd (signMessage env message w)) = elytroSDK w /\
             walletClient (snd (signMessage env message w)) = walletClient w).
  { intros message.
    unfold signMessage, async, bind, call, gets, await, ret, throw. cbn.
    destruct (currentAccount (accountManager w)) as [a|]; cbn; [|now repeat split].
    destruct (address a =? ""); cbn; [now repeat split|].
    destruct message; cbn; try now repeat split.
    destruct (sdk_signMessage env (elytroSDK w) s (address a)); cbn;
      now repeat split. }
  repeat match goal with |- _ /\ _ => split end; unfold quiet, after.
  - intros account. unfold removeAccount, async, bind, on, await, ret, throw. cbn.
    destruct (account_removeAccountByAddress svc account (accountManager w))
      as [[|] am']; cbn; now repeat split.
  - intros chainId. unfold deleteChain, async, bind, on, lift. cbn.
    destruct (chain_deleteChain svc chainId (chainService w)) as [[|] s']; cbn;
      now repeat split.
  - intros chain. unfold addChain, async, bind, on, lift. cbn.
    destruct (chain_addChain svc chain (chainService w)) as [[|] s']; cbn;
      now repeat split.
  - intros entry. unfold addNewHistory, async, bind, on, lift. cbn.
    destruct (history_add svc entry (historyManager w)) as [[|] h']; cbn;
      now repeat split.
  - intros password. unfold createNewOwner, async, bind, on, await, ret, throw. cbn.
    destruct (keyring_createNewOwner svc password (keyring w)) as [[|] k']; cbn;
      now repeat split.
  - intros password. unfold unlock, async, bind, on, await, ret, throw. cbn.
    destruct (keyring_unlock svc password (keyring w)) as [[|] k']; cbn;
      now repeat split.
  - unfold lock, async, bind, on, await, ret, throw. cbn.
    destruct (keyring_lock svc (keyring w)) as [[|] k']; cbn; now repeat split.
  - unfold getLockStatus, async, bind, on, await, gets, ret, throw. cbn.
    destruct (keyring_tryUnlock svc (keyring w)) as [[|] k']; cbn; now repeat split.
  - unfold getCurrentAccount, async, bind, call, gets, await, ret, throw. cbn.
    destruct (currentAccount (accountManager w)) as [info|]; cbn; [|now repeat split].
    destruct (isDeployed info); cbn.
    + destruct (client_getBalance env (walletClient w) (address info)); cbn;
        now repeat split.
    + destruct (sdk_isSmartAccountDeployed env (elytroSDK w) (address info))
        as [[|]|]; cbn; try now repeat split.
      all: destruct (client_getBalance env (walletClient w) (address info)); cbn;
        now repeat split.
  - exact Hsign.
  - intros typedData.
    destruct (signTypedData env typedData w) as [r w2] eqn:E. cbn [snd].
    unfold signTypedData, async, try_catch, bind at 1 in E.
    rewrite compute_hash_run in E.
    destruct (typed_data_hash env typedData) as [[h|]|e];
      [destruct (String.eqb_spec h "")| |];
      try (cbn in E; injection E as <- <-; now repeat split).
    unfold bind, await in E. specialize (Hsign (JString h)).
    destruct (signMessage_returns env (JString h) w) as [p Hp].
    destruct (signMessage env (JString h) w) as [r1 w1].
    unfold result in Hp. cbn [fst snd] in *. subst r1.
    destruct (String.eqb_spec h ""); [contradiction|].
    destruct p; cbn in E; injection E as <- <-; exact Hsign.
  - intros userOp. unfold signUserOperation, async, bind, call, gets, await. cbn.
    destruct (sdk_signUserOperation env (elytroSDK w) _); cbn; now repeat split.
  - intros userOp. unfold sendUserOperation, async, bind, call, gets, await. cbn.
    destruct (sdk_sendUserOperation env (elytroSDK w) _); cbn; now repeat split.
  - intros userOp. unfold estimateGas, async, bind, call, gets, await, ret. cbn.
    destruct (sdk_estimateGas env (elytroSDK w) userOp true); cbn; now repeat split.
  - intros userOp. unfold decodeUserOp, async, bind, call, gets, await, ret. cbn.
    destruct (sdk_getDecodedUserOperation env (elytroSDK w) userOp); cbn;
      now repeat split.
  - intros id response. unfold resolveApproval, async, call. cbn. now repeat split.
  - intros id. unfold rejectApproval, async, call. cbn. now repeat split.
Qed.

End Building.

(* ================================================================== *)
(** ** The chain id on the wire *)
(* ================================================================== *)

Lemma toHex_injective (n m : N) : Hex.toHex n = Hex.toHex m -> n = m.
Proof.
  intros H. pose proof (fromHex_toHex n) as Hn. rewrite H, fromHex_toHex in Hn.
  now injection Hn.
Qed.

(** The chain-config-changed routine resets the SDK and initialises the
    chain client for the current chain in every case, but tells the sessions
    only of a chain whose id is at most [Number.MAX_SAFE_INTEGER]: for a
    larger id [toHex] throws after the two calls, so the routine rejects and
    no session receives [chainChanged]. *)
Theorem onChainConfigChanged_broadcasts_safe_ids_only :
  forall (w : World) (c : TChainItem),
    currentChain (chainService w) = Some c ->
    let run := _onChainConfigChanged w in
    let msg := {| event_name := "chainChanged";
                  event_payload := ChainIdHex (Hex.toHex (chain_id c)) |} in
    elytroSDK (after run) = Some c /\
    walletClient (after run) = Some c /\
    ((chain_id c <= Hex.max_safe_integer)%N ->
       result run = Returned (Fulfilled tt) /\
       emitted w (after run) = [SdkReset c; ClientInit c; SessionBroadcast msg] /\
       delivered (fun _ => True) [msg] (sessionManager w) (sessionManager (after run))) /\
    ((Hex.max_safe_integer < chain_id c)%N ->
       (exists e, result run = Returned (Rejected e)) /\
       emitted w (after run) = [SdkReset c; ClientInit c] /\
       sessionManager (after run) = sessionManager w).
Proof.
  intros w c Hc. cbv zeta.
  pose proof (onChainConfigChanged_run w) as Hrun. cbv zeta in Hrun.
  rewrite Hc in Hrun. destruct Hrun as (Hr & Htr & Hsdk & Hcl & Hses & _).
  rewrite (emitted_app _ _ _ Htr), Hr, Hses.
  split; [exact Hsdk|]. split; [exact Hcl|].
  unfold chain_config_changed_calls, chain_config_changed_messages.
  destruct (safe_id_spec c) as [Hsafe Hunsafe].
  destruct (safe_id c); cbn.
  - split.
    + intros _. split; [reflexivity|]. split; [reflexivity|].
      apply broadcastMessage_delivered.
    + intros Hbig. apply Hunsafe in Hbig. discriminate.
  - split.
    + intros Hsmall. apply Hsafe in Hsmall. discriminate.
    + intros _. split; [now eexists|]. now split.
Qed.

Lemma onChainConfigChanged_broadcasts_safe_ids_only_witness :
  currentChain (chainService Sample2.far_world) = Some Sample2.far_chain /\
  elytroSDK (after (_onChainConfigChanged Sample2.far_world)) = Some Sample2.far_chain.
Proof.
  split; [reflexivity|].
  exact (proj1 (onChainConfigChanged_broadcasts_safe_ids_only Sample2.far_world
                  Sample2.far_chain eq_refl)).
Defined.

(* ================================================================== *)
(** ** The page [CreateNewAddress] *)
(* ================================================================== *)

Module CreateNewAddressFacts.

Import CreateNewAddress.



Lemma added_app (p p' : Page) (new : list effect) :
  effects p' = (effects p ++ new)%list -> added p p' = new.
Proof. unfold added. intros ->. apply skipn_prefix. Qed.

(** The runs of [handleCreate] past its guards: loading is switched on,
    the wallet is called, and the run ends by switching loading off, after
    either an error was logged (at the creation or at one of the context
    calls) or the navigation was scheduled behind the four context calls. *)
Lemma handleCreate_outcomes (hooks : Hooks) (currentChain : option TChainItem)
  (page : Page) (chain : TChainItem) :
  selectedChain page = Some chain ->
  on_this_network currentChain chain = false ->
  let run := handleCreate hooks currentChain page in
  fst run = Returned (Fulfilled tt) /\
  isLoading (snd run) = false /\
  selectedChain (snd run) = Some chain /\
  exists middle : list effect,
    effects (snd run) =
      (effects page
       ++ SetIsLoading true :: WalletCreateAccount (chain_id chain)
            :: middle ++ [SetIsLoading false])%list /\
    ((exists (k : nat) (e : exn),
        (k <= 4)%nat /\ middle = (firstn k refresh_effects ++ [ConsoleError e])%list) \/
     middle = (refresh_effects ++ [NavigateLater 300])%list) /\
    (forall e w',
       wallet_createAccount hooks (chain_id chain) (background page) = (Rejected e, w') ->
       middle = [ConsoleError e] /\ background (snd run) = w') /\
    (forall w',
       wallet_createAccount hooks (chain_id chain) (background page) = (Fulfilled tt, w') ->
       exists rest, middle = GetCurrentChain :: rest).
Proof.
  intros Hsel Hnet. cbv zeta.
  destruct (handleCreate hooks currentChain page) as [r page'] eqn:E.
  unfold handleCreate, ui_async at 1 in E. rewrite Hsel, Hnet in E.
  unfold try_catch_finally, handleAfterCreating, ui_async, ui_bind, setIsLoading,
    emit, remote, ui_await, ui_ret, ui_throw in E.
  cbn [isLoading selectedChain background effects] in E.
  cbn [fst snd].
  destruct (wallet_createAccount hooks (chain_id chain) (background page))
    as [[[]|e0] w1] eqn:Hcreate;
    cbn [isLoading selectedChain background effects settle] in E.
  2: { injection E as <- <-. cbn. rewrite Hsel.
       repeat (split; [reflexivity|]).
       exists [ConsoleError e0]. split; [now rewrite <- !app_assoc|].
       split; [left; exists 0%nat, e0; split; [lia|reflexivity]|].
       split; [|discriminate]. intros e w' [= <- <-]. now split. }
  destruct (ctx_getCurrentChain hooks w1) as [[[]|e1] w2];
    cbn [isLoading selectedChain background effects settle] in E.
  2: { injection E as <- <-. cbn. rewrite Hsel.
       repeat (split; [reflexivity|]).
       exists [GetCurrentChain; ConsoleError e1]. split; [now rewrite <- !app_assoc|].
       split; [left; exists 1%nat, e1; split; [lia|reflexivity]|].
       split; [discriminate|]. intros w' _. now eexists. }
  destruct (ctx_getAccounts hooks w2) as [[[]|e2] w3];
    cbn [isLoading selectedChain background effects settle] in E.
  2: { injection E as <- <-. cbn. rewrite Hsel.
       repeat (split; [reflexivity|]).
       exists [GetCurrentChain; GetAccounts; ConsoleError e2].
       split; [now rewrite <- !app_assoc|].
       split; [left; exists 2%nat, e2; split; [lia|reflexivity]|].
       split; [discriminate|]. intros w' _. now eexists. }
  destruct (ctx_updateAccount hooks w3) as [[[]|e3] w4];
    cbn [isLoading selectedChain background effects settle] in E.
  2: { injection E as <- <-. cbn. rewrite Hsel.
       repeat (split; [reflexivity|]).
       exists [GetCurrentChain; GetAccounts; UpdateAccount; ConsoleError e3].
       split; [now rewrite <- !app_assoc|].
       split; [left; exists 3%nat, e3; split; [lia|reflexivity]|].
       split; [discriminate|]. intros w' _. now eexists. }
  destruct (ctx_updateTokens hooks w4) as [[[]|e4] w5];
    cbn [isLoading selectedChain background effects settle] in E.
  2: { injection E as <- <-. cbn. rewrite Hsel.
       repeat (split; [reflexivity|]).
       exists [GetCurrentChain; GetAccounts; UpdateAccount; UpdateTokens; ConsoleError e4].
       split; [now rewrite <- !app_assoc|].
       split; [left; exists 4%nat, e4; split; [lia|reflexivity]|].
       split; [discriminate|]. intros w' _. now eexists. }
  injection E as <- <-. cbn. rewrite Hsel.
  repeat (split; [reflexivity|]).
  exists (refresh_effects ++ [NavigateLater 300])%list.
  split; [cbn; now rewrite <- !app_assoc|]. split; [now right|].
  split; [discriminate|]. intros w' _. now eexists.
Qed.

Lemma handleCreate_on_this_network (hooks : Hooks) (currentChain : option TChainItem)
  (page : Page) (chain : TChainItem) :
  selectedChain page = Some chain ->
  on_this_network currentChain chain = true ->
  handleCreate hooks currentChain page =
    (Returned (Fulfilled tt),
     {| isLoading := isLoading page; selectedChain := selectedChain page;
        background := background page;
        effects := (effects page
                    ++ [Toast "Create address failed"
                          "You are already on this network"])%list |}).
Proof.
  intros Hsel Hnet. unfold handleCreate, ui_async, emit.
  now rewrite Hsel, Hnet.
Qed.

(** [handleCreate] does nothing without a selection, and on the network the
    wallet is already on it only shows a toast: the wallet is not called,
    loading is not switched on and the background process is untouched. *)
Theorem handleCreate_guards :
  forall (hooks : Hooks) (currentChain : option TChainItem) (page : Page),
    let run := handleCreate hooks currentChain page in
    (selectedChain page = None -> run = (Returned (Fulfilled tt), page)) /\
    (forall chain,
       selectedChain page = Some chain ->
       on_this_network currentChain chain = true ->
       fst run = Returned (Fulfilled tt) /\
       added page (snd run) =
         [Toast "Create address failed" "You are already on this network"] /\
       background (snd run) = background page /\
       isLoading (snd run) = isLoading page /\
       selectedChain (snd run) = selectedChain page).
Proof.
  intros hooks currentChain page. cbv zeta. split.
  - intros Hsel. unfold handleCreate, ui_async, ui_ret. rewrite Hsel.
    now destruct page.
  - intros chain Hsel Hnet.
    rewrite (handleCreate_on_this_network hooks currentChain page chain Hsel Hnet).
    cbn. split; [reflexivity|]. split; [apply added_app; reflexivity|now repeat split].
Qed.

(** Past its guards [handleCreate] never rejects and never leaves the page
    loading: whatever the wallet and the contexts answer, its promise is
    fulfilled, the first effect switches loading on, the last switches it
    off, the wallet is called exactly once, and exactly one of the two
    happens in between: an error is logged, or the navigation is
    scheduled. *)
Theorem handleCreate_always_stops_loading :
  forall (hooks : Hooks) (currentChain : option TChainItem) (page : Page)
    (chain : TChainItem),
    selectedChain page = Some chain ->
    on_this_network currentChain chain = false ->
    let run := handleCreate hooks currentChain page in
    let new := added page (snd run) in
    fst run = Returned (Fulfilled tt) /\
    isLoading (snd run) = false /\
    hd_error new = Some (SetIsLoading true) /\
    last new (SetIsLoading true) = SetIsLoading false /\
    List.length (filter is_wallet_call new) = 1%nat /\
    (List.length (filter is_navigation new)
     + List.length (filter is_console_error new) = 1)%nat.
Proof.
  intros hooks currentChain page chain Hsel Hnet. cbv zeta.
  destruct (handleCreate_outcomes hooks currentChain page chain Hsel Hnet)
    as (Hr & Hload & _ & middle & Heff & Hforms & _).
  rewrite (added_app _ _ _ Heff).
  split; [exact Hr|]. split; [exact Hload|]. split; [reflexivity|].
  destruct Hforms as [(k & e & Hk & ->)| ->].
  - do 5 (destruct k as [|k]; [cbn; now repeat split|]). lia.
  - cbn. now repeat split.
Qed.

Lemma handleCreate_always_stops_loading_witness :
  selectedChain Sample2.page = Some Sample.optimism /\
  on_this_network (Some Sample.sepolia) Sample.optimism = false /\
  isLoading (snd (handleCreate Sample2.hooks (Some Sample.sepolia) Sample2.page)) = false.
Proof.
  split; [reflexivity|]. split; [reflexivity|].
  exact (proj1 (proj2 (handleCreate_always_stops_loading Sample2.hooks
                         (Some Sample.sepolia) Sample2.page Sample.optimism
                         eq_refl eq_refl))).
Defined.

(** The navigation to the dashboard is scheduled only behind the creation
    and the four context calls, in their order; when the creation fails the
    error is logged, no context is called and nothing is scheduled. *)
Theorem handleCreate_navigates_after_refresh :
  forall (hooks : Hooks) (currentChain : option TChainItem) (page : Page)
    (chain : TChainItem),
    selectedChain page = Some chain ->
    on_this_network currentChain chain = false ->
    let run := handleCreate hooks currentChain page in
    let new := added page (snd run) in
    (existsb is_navigation new = true ->
       new = [SetIsLoading true; WalletCreateAccount (chain_id chain);
              GetCurrentChain; GetAccounts; UpdateAccount; UpdateTokens;
              NavigateLater 300; SetIsLoading false]) /\
    (forall e w',
       wallet_createAccount hooks (chain_id chain) (background page) = (Rejected e, w') ->
       new = [SetIsLoading true; WalletCreateAccount (chain_id chain);
              ConsoleError e; SetIsLoading false] /\
       background (snd run) = w').
Proof.
  intros hooks currentChain page chain Hsel Hnet. cbv zeta.
  destruct (handleCreate_outcomes hooks currentChain page chain Hsel Hnet)
    as (_ & _ & _ & middle & Heff & Hforms & Hfail & _).
  rewrite (added_app _ _ _ Heff). split.
  - destruct Hforms as [(k & e & Hk & ->)| ->]; [|reflexivity].
    do 5 (destruct k as [|k]; [cbn; discriminate|]). lia.
  - intros e w' Hcreate. destruct (Hfail e w' Hcreate) as [-> Hbg]. now split.
Qed.

Lemma handleCreate_navigates_after_refresh_witness :
  selectedChain Sample2.page = Some Sample.optimism /\
  on_this_network (Some Sample.sepolia) Sample.optimism = false /\
  (existsb is_navigation
     (added Sample2.page
        (snd (handleCreate Sample2.hooks (Some Sample.sepolia) Sample2.page))) = true ->
   added Sample2.page
     (snd (handleCreate Sample2.hooks (Some Sample.sepolia) Sample2.page)) =
     [SetIsLoading true; WalletCreateAccount 10;
      GetCurrentChain; GetAccounts; UpdateAccount; UpdateTokens;
      NavigateLater 300; SetIsLoading false]).
Proof.
  split; [reflexivity|]. split; [reflexivity|].
  exact (proj1 (handleCreate_navigates_after_refresh Sample2.hooks
                  (Some Sample.sepolia) Sample2.page Sample.optimism eq_refl eq_refl)).
Defined.

Lemma createAccount_with_owner (env : Collaborators) (chainId : N) (w : World)
  (a : string) :
  owner_address_of w = Some a ->
  let run := createAccount env chainId w in
  result run = Returned (Fulfilled tt) /\
  emitted w (after run) =
    (switch_chain_calls env chainId w ++ [AccountCreateAsCurrent a chainId])%list.
Proof.
  intros Howner. cbv zeta.
  destruct (createAccount env chainId w) as [r w2] eqn:E.
  unfold createAccount, async, bind at 1, gets at 1, throw in E.
  cbv beta iota in E. unfold owner_address_of in Howner.
  destruct (owner (keyring w)) as [o|]; [|discriminate].
  destruct (owner_address o) as [a'|]; [|discriminate].
  destruct (a' =? "") eqn:Ha; [discriminate|]. injection Howner as ->.
  unfold bind, call in E.
  pose proof (switchChain_run env chainId w) as Hsw. cbv zeta in Hsw.
  destruct (_switchChain env chainId w) as [r1 w1].
  destruct Hsw as (Hr & Htr & _).
  unfold result, after in *. cbn [fst snd] in *. subst r1.
  injection E as <- <-. split; [reflexivity|].
  apply emitted_app. cbn. rewrite Htr. now rewrite <- app_assoc.
Qed.

(** The page over the controller.  With the chain context in step with the
    chain service and an owner in the keyring, a click on Create for the
    current chain leaves the background process untouched; for any other
    chain the controller's [createAccount] runs its chain-switch step, which
    starts by asking the chain service to switch, and the page goes on to
    refresh its contexts.  So the page never creates an account through the
    silent no-op branch of the chain switch. *)
Theorem page_creates_only_on_another_chain :
  forall (env : Collaborators) (hooks : Hooks) (page : Page) (chain : TChainItem)
    (a : string),
    wallet_createAccount hooks = (fun chainId => proxied (createAccount env chainId)) ->
    selectedChain page = Some chain ->
    owner_address_of (background page) = Some a ->
    let w := background page in
    let run := handleCreate hooks (currentChain (chainService w)) page in
    let new := added page (snd run) in
    (is_current_chain (chain_id chain) w = true ->
       background (snd run) = w /\
       existsb is_wallet_call new = false) /\
    (is_current_chain (chain_id chain) w = false ->
       (exists rest,
          new = SetIsLoading true :: WalletCreateAccount (chain_id chain)
                  :: GetCurrentChain :: rest) /\
       exists calls,
         emitted w (after (createAccount env (chain_id chain) w)) =
           (ChainSwitch (chain_id chain) :: calls
            ++ [AccountCreateAsCurrent a (chain_id chain)])%list).
Proof.
  intros env hooks page chain a Hwallet Hsel Howner. cbv zeta.
  assert (Hsame : on_this_network (currentChain (chainService (background page))) chain
                  = is_current_chain (chain_id chain) (background page)).
  { unfold on_this_network, is_current_chain.
    destruct (currentChain (chainService (background page))); [apply N.eqb_sym|reflexivity]. }
  split; intros Hcur; rewrite <- Hsame in Hcur.
  - rewrite (handleCreate_on_this_network hooks _ page chain Hsel Hcur). cbn.
    split; [reflexivity|].
    erewrite added_app; [|reflexivity]. reflexivity.
  - destruct (handleCreate_outcomes hooks _ page chain Hsel Hcur)
      as (_ & _ & _ & middle & Heff & _ & _ & Hok).
    rewrite (added_app _ _ _ Heff).
    destruct (createAccount_with_owner env (chain_id chain) (background page) a Howner)
      as [Hres Hcalls].
    split.
    + rewrite Hwallet in Hok. unfold proxied in Hok.
      destruct (createAccount env (chain_id chain) (background page)) as [r w'].
      unfold result in Hres. cbn [fst] in Hres. subst r.
      destruct (Hok w' eq_refl) as [rest ->]. now eexists.
    + rewrite Hcalls. unfold switch_chain_calls.
      rewrite Hsame in Hcur. rewrite Hcur. now eexists.
Qed.

Lemma page_creates_only_on_another_chain_witness :
  wallet_createAccount Sample2.hooks =
    (fun chainId => proxied (createAccount Sample.collaborators chainId)) /\
  selectedChain Sample2.page = Some Sample.optimism /\
  owner_address_of (background Sample2.page) = Some "0x0wner" /\
  (is_current_chain 10 Sample.world = false ->
   (exists rest,
      added Sample2.page
        (snd (handleCreate Sample2.hooks (Some Sample.sepolia) Sample2.page)) =
        SetIsLoading true :: WalletCreateAccount 10 :: GetCurrentChain :: rest) /\
   exists calls,
     emitted Sample.world (after (createAccount Sample.collaborators 10 Sample.world)) =
       (ChainSwitch 10 :: calls ++ [AccountCreateAsCurrent "0x0wner" 10])%list).
Proof.
  split; [reflexivity|]. split; [reflexivity|]. split; [reflexivity|].
  exact (proj2 (page_creates_only_on_another_chain Sample.collaborators Sample2.hooks
                  Sample2.page Sample.optimism "0x0wner" eq_refl eq_refl eq_refl)).
Defined.

End CreateNewAddressFacts.

(* ================================================================== *)
(** ** Edges of signing and switching *)
(* ================================================================== *)

Section Edges.

Variable env : Collaborators.

Lemma signMessage_calls (message : jsvalue) (w : World) :
  let new := emitted w (after (signMessage env message w)) in
  new = [] \/
  exists text signer,
    message = JString text /\ current_address w = Some signer /\ signer <> "" /\
    new = [SdkSignMessage text signer].
Proof.
  cbv zeta.
  unfold signMessage, current_address, async, bind, call, gets, throw, after.
  cbn. destruct (currentAccount (accountManager w)) as [a|]; cbn.
  - destruct (String.eqb_spec (address a) "") as [Hempty|Hfull]; cbn.
    + left. apply emitted_app. cbn. now rewrite app_nil_r.
    + destruct message; cbn; try (left; apply emitted_app; cbn; now rewrite app_nil_r).
      right. exists s, (address a). repeat (split; [reflexivity || assumption|]).
      destruct (sdk_signMessage env (elytroSDK w) s (address a)); cbn;
        apply emitted_app; reflexivity.
  - left. apply emitted_app. cbn. now rewrite app_nil_r.
Qed.

(** [signTypedData] asks the SDK for at most one signature, and only for
    the hash it computed: the message signed is that hash and is not empty,
    and the signer is the current account's address, which is not empty
    either.  No part of the typed data itself reaches the SDK. *)
Theorem signTypedData_signs_only_the_hash :
  forall (typedData : string + list TTypedDataItem) (w : World),
    let new := emitted w (after (signTypedData env typedData w)) in
    new = [] \/
    exists h signer,
      new = [SdkSignMessage h signer] /\
      typed_data_hash env typedData = Returned (Some h) /\ h <> "" /\
      current_address w = Some signer /\ signer <> "".
Proof.
  intros typedData w. cbv zeta.
  destruct (signTypedData env typedData w) as [r w2] eqn:E.
  unfold after. cbn [snd].
  unfold signTypedData, async, try_catch, bind at 1 in E.
  rewrite compute_hash_run in E.
  destruct (typed_data_hash env typedData) as [[h|]|e];
    [destruct (String.eqb_spec h "") as [Hempty|Hfull]| |];
    try (cbn in E; injection E as <- <-; left; apply emitted_app;
         now rewrite app_nil_r).
  unfold bind, await in E.
  pose proof (signMessage_calls (JString h) w) as Hcalls. cbv zeta in Hcalls.
  destruct (signMessage_returns env (JString h) w) as [p Hp].
  destruct (signMessage env (JString h) w) as [r1 w1].
  unfold result, after in *. cbn [fst snd] in *. subst r1.
  destruct (String.eqb_spec h ""); [contradiction|].
  assert (Hw : w2 = w1) by (destruct p; cbn in E; now injection E as <- <-).
  subst w2. destruct Hcalls as [Hnone|(text & signer & [= <-] & Hsigner & Hfull' & Hnew)].
  - now left.
  - right. exists h, signer. now repeat split.
Qed.

(** [switchAccountByChain] to a chain on which the account manager finds no
    account still reloads the history and tells every session: the history
    manager is switched to an undefined account and [accountsChanged] goes
    out last with a one-element payload holding an undefined address. *)
Theorem switchAccountByChain_without_account :
  forall (chainId : N) (w : World),
    currentAccount (account_switchAccountByChainId env chainId (accountManager w)) = None ->
    let run := switchAccountByChain env chainId w in
    let msg := {| event_name := "accountsChanged"; event_payload := Addresses [None] |} in
    result run = Returned (Fulfilled tt) /\
    (exists before,
       emitted w (after run) =
         (before ++ [AccountSwitchByChainId chainId; HistorySwitchAccount None;
                     SessionBroadcast msg])%list) /\
    historyManager (after run) = history_switchAccount env None (historyManager w) /\
    Forall2 (fun s s' => exists earlier, inbox s' = (inbox s ++ earlier ++ [msg])%list)
      (sessionManager w) (sessionManager (after run)).
Proof.
  intros chainId w Hnone. cbv zeta.
  destruct (switchAccountByChain env chainId w) as [r w2] eqn:E.
  unfold switchAccountByChain, async, bind, call, gets, accountsChanged,
    current_address in E.
  pose proof (switchChain_run env chainId w) as Hsw. cbv zeta in Hsw.
  destruct (_switchChain env chainId w) as [r1 w1].
  destruct Hsw as (Hr & Htr & _ & Hses & _ & _ & Ham & Hh & _).
  unfold result, after in *. cbn [fst snd] in *. subst r1.
  cbn in E. rewrite Ham, Hnone in E. injection E as <- <-. cbn.
  rewrite Hh, Hses.
  split; [reflexivity|]. split.
  { exists (switch_chain_calls env chainId w).
    apply emitted_app. cbn. rewrite Htr. now rewrite <- !app_assoc. }
  split; [reflexivity|].
  pose proof (delivered_then _ _ _ _ _
                (delivered_fold (switch_chain_messages env chainId w) (sessionManager w))
                (broadcastMessage_delivered
                   {| event_name := "accountsChanged"; event_payload := Addresses [None] |}
                   _)) as Hd.
  unfold delivered in Hd.
  eapply Forall2_impl; [|exact Hd].
  intros s s' (_ & Hin & _). exists (switch_chain_messages env chainId w).
  now rewrite (Hin I).
Qed.

(** A failure of the chain-config-changed routine does not reach the caller
    of [createAccount]: the routine is called without [await].  When the
    chain service hands back a config but is left without a current chain,
    the routine rejects, and [createAccount] still creates the account and
    fulfils; the SDK and the chain client stay where they were and no
    session is told. *)
Theorem createAccount_drops_routine_failure :
  forall (chainId : N) (w : World) (a : string) (svc' : ChainService)
    (config : TChainItem),
    owner_address_of w = Some a ->
    is_current_chain chainId w = false ->
    chain_switchChain env chainId (chainService w) = (svc', Some config) ->
    currentChain svc' = None ->
    let run := createAccount env chainId w in
    result (_onChainConfigChanged (log (ChainSwitch chainId) (with_chainService svc' w))) =
      Returned (Rejected (JsError "Elytro: No current chain config")) /\
    result run = Returned (Fulfilled tt) /\
    emitted w (after run) = [ChainSwitch chainId; AccountCreateAsCurrent a chainId] /\
    accountManager (after run) =
      account_createAccountAsCurrent env a chainId (accountManager w) /\
    quiet w (after run).
Proof.
  intros chainId w a svc' config Howner Hcur Hsw Hnone. cbv zeta.
  split.
  { pose proof (onChainConfigChanged_run
                  (log (ChainSwitch chainId) (with_chainService svc' w))) as Hrun.
    cbv zeta in Hrun. cbn [chainService log with_chainService] in Hrun.
    rewrite Hnone in Hrun. now rewrite Hrun. }
  destruct (createAccount env chainId w) as [r w2] eqn:E.
  unfold createAccount, async, bind at 1, gets at 1, throw in E.
  cbv beta iota in E. unfold owner_address_of in Howner.
  destruct (owner (keyring w)) as [o|]; [|discriminate].
  destruct (owner_address o) as [a'|]; [|discriminate].
  destruct (a' =? "") eqn:Ha; [discriminate|]. injection Howner as ->.
  unfold bind, call in E.
  pose proof (switchChain_run env chainId w) as Hrun. cbv zeta in Hrun.
  unfold switch_chain_calls, switch_chain_messages, switched_to in Hrun.
  rewrite Hcur, Hsw, Hnone in Hrun.
  destruct (_switchChain env chainId w) as [r1 w1].
  destruct Hrun as (Hr & Htr & _ & Hses & Hsdk & _ & Ham & _).
  destruct (Hsdk eq_refl) as [Hsdk1 Hcl1].
  unfold result, after, quiet in *. cbn [fst snd] in *. subst r1.
  injection E as <- <-. cbn. rewrite Ham, Hses, Hsdk1, Hcl1.
  split; [reflexivity|]. split; [|now repeat split].
  apply emitted_app. cbn. rewrite Htr. now rewrite <- app_assoc.
Qed.

End Edges.

Lemma switchAccountByChain_without_account_witness :
  currentAccount
    (account_switchAccountByChainId Sample.collaborators 999
       (accountManager Sample.world)) = None /\
  result (switchAccountByChain Sample.collaborators 999 Sample.world) =
    Returned (Fulfilled tt).
Proof.
  split; [reflexivity|].
  exact (proj1 (switchAccountByChain_without_account Sample.collaborators 999
                  Sample.world eq_refl)).
Defined.

Lemma createAccount_drops_routine_failure_witness :
  owner_address_of Sample.world = Some "0x0wner" /\
  is_current_chain 10 Sample.world = false /\
  currentChain (fst (Sample2.stuck_switch 10 (chainService Sample.world))) = None /\
  result (createAccount Sample2.stuck_collaborators 10 Sample.world) =
    Returned (Fulfilled tt).
Proof.
  split; [reflexivity|]. split; [reflexivity|]. split; [reflexivity|].
  exact (proj1 (proj2 (createAccount_drops_routine_failure Sample2.stuck_collaborators
                         10 Sample.world "0x0wner" _ _ eq_refl eq_refl eq_refl eq_refl))).
Defined.

Lemma getCurrentAccount_deployed_fast_path_witness :
  currentAccount (accountManager Sample2.deployed_world) = Some Sample.alice_on_optimism /\
  isDeployed Sample.alice_on_optimism = true /\
  emitted Sample2.deployed_world
    (after (getCurrentAccount Sample.collaborators Sample2.deployed_world)) =
    [ClientGetBalance "0xA11ce10"].
Proof.
  split; [reflexivity|]. split; [reflexivity|].
  exact (proj1 (getCurrentAccount_deployed_fast_path Sample.collaborators
                  Sample2.deployed_world Sample.alice_on_optimism eq_refl eq_refl)).
Defined.

Lemma getCurrentAccount_checks_deployment_witness :
  currentAccount (accountManager Sample.world) = Some Sample.alice /\
  isDeployed Sample.alice = false /\
  (sdk_isSmartAccountDeployed Sample.collaborators (elytroSDK Sample.world) "0xA11ce"
     = Fulfilled false ->
   emitted Sample.world (after (getCurrentAccount Sample.collaborators Sample.world)) =
     [SdkIsDeployed "0xA11ce"; ClientGetBalance "0xA11ce"] /\
   accountManager (after (getCurrentAccount Sample.collaborators Sample.world)) =
     accountManager Sample.world).
Proof.
  split; [reflexivity|]. split; [reflexivity|].
  exact (proj1 (proj2 (getCurrentAccount_checks_deployment Sample.collaborators
                         Sample.world Sample.alice eq_refl eq_refl))).
Defined.

Lemma packUserOp_reads_amount_witness :
  (forall s m, Hex.fromHex s = Some m -> js_BigInt Sample2.services s = Returned m) /\
  after (packUserOp Sample2.services Sample.userOp (Hex.toHex 255) Sample.world) =
    Sample.world.
Proof.
  assert (Hbig : forall s m,
             Hex.fromHex s = Some m -> js_BigInt Sample2.services s = Returned m).
  { intros s m H. cbn. unfold Sample2.readBigInt. now rewrite H. }
  split; [exact Hbig|].
  exact (proj1 (packUserOp_reads_amount Sample2.services Sample.userOp 255
                  Sample.world Hbig)).
Defined.

(** The sample page: Create on OP Mainnet while the wallet is on Sepolia. *)
Example create_on_optimism_from_page :
  let run := CreateNewAddress.handleCreate Sample2.hooks (Some Sample.sepolia) Sample2.page in
  CreateNewAddress.effects (snd run) =
    [CreateNewAddress.SetIsLoading true; CreateNewAddress.WalletCreateAccount 10;
     CreateNewAddress.GetCurrentChain; CreateNewAddress.GetAccounts;
     CreateNewAddress.UpdateAccount; CreateNewAddress.UpdateTokens;
     CreateNewAddress.NavigateLater 300; CreateNewAddress.SetIsLoading false] /\
  emitted Sample.world (CreateNewAddress.background (snd run)) =
    [ChainSwitch 10; SdkReset Sample.optimism; ClientInit Sample.optimism;
     SessionBroadcast {| event_name := "chainChanged"; event_payload := ChainIdHex "0xa" |};
     AccountCreateAsCurrent "0x0wner" 10].
Proof. vm_compute. split; reflexivity. Qed.

Example histories_of_the_sample :
  result (getLatestHistories Sample.collaborators Sample2.history_world) =
    Returned [[("opHash", "0x01"); ("status", "confirmed")];
              [("opHash", "0x02"); ("status", "pending")]].
Proof. vm_compute. reflexivity. Qed.

Example pack_with_hex_amount :
  result (packUserOp Sample2.services [] "0xff" Sample.world) =
    Returned (Fulfilled
      {| packed_userOp := [];
         packed_calcResult := [("needDeposit", Format.FBool true);
                               ("missAmount", Format.FString "0xff")] |}).
Proof. vm_compute. reflexivity. Qed.

Example ens_lookup_fails_first :
  result (getENSInfoByName Sample2.services "bob.eth" Sample.world) =
    Returned (Rejected (JsError "ENS name not found")).
Proof. vm_compute. reflexivity. Qed.
